(** * passport-simple-webauthn: the WebAuthn passport strategy

    A shallow embedding of [src/lib/strategy.ts].  The only function of
    the repository with behaviour of its own is [Strategy.authenticate]:
    it classifies a ceremony response, calls the external
    SimpleWebAuthn verifier and the two developer supplied functions,
    and reports to passport through [success], [fail] and [error].

    [authenticate] is an [async] function that talks to collaborators.
    A run is modelled as the list of the observable events it produces,
    in order, together with the way the promise it returns settles. *)

From Stdlib Require Import List String Ascii ZArith Bool Arith Lia Permutation.
Import ListNotations.
Open Scope string_scope.
Open Scope list_scope.

(** ** JavaScript values

    The request body, the decoded client data, the [info] and [err]
    arguments of the completion callbacks and thrown values are all
    untyped ([any]) in the source.  [JsVal] covers [undefined] and the
    JSON values: [null], booleans, numbers, strings, arrays and objects.
    A number is kept as JavaScript prints it (["5"], ["0.25"],
    ["1e+21"]), which is all the strategy can observe of it. *)

#[warnings="-register-all"]
Inductive JsVal : Type :=
| JUndefined
| JNull
| JBool (b : bool)
| JNum (printed : string)
| JStr (s : string)
| JArr (elements : list JsVal)
| JObj (fields : list (string * JsVal)).

(** How a computation ends: it returns (a promise fulfils), it throws
    (a promise rejects), or it never settles. *)
Inductive Outcome (A : Type) : Type :=
| Done (a : A)
| Raised (e : JsVal)
| Pending.
Arguments Done {A} a.
Arguments Raised {A} e.
Arguments Pending {A}.

Module Js.

(** [if (v)], [!v], [a && b]: JavaScript truthiness. *)
Definition truthy (v : JsVal) : bool :=
  match v with
  | JUndefined | JNull => false
  | JBool b => b
  | JNum printed => negb (String.eqb printed "0" || String.eqb printed "NaN")
  | JStr s => negb (String.eqb s EmptyString)
  | JArr _ | JObj _ => true
  end.

(** [v === 'literal'] against a string. *)
Definition strict_eq_str (v : JsVal) (s : string) : bool :=
  match v with
  | JStr s' => String.eqb s' s
  | _ => false
  end.

Fixpoint lookup (k : string) (fs : list (string * JsVal)) : option JsVal :=
  match fs with
  | [] => None
  | (k', v) :: fs' => if String.eqb k' k then Some v else lookup k fs'
  end.

Definition TypeError (msg : string) : JsVal :=
  JObj [("name", JStr "TypeError"); ("message", JStr msg)].

(** [v.k] for an own data property: reading a property of [undefined]
    or [null] throws, a primitive or an array has none of the
    properties the strategy reads, an object yields the property or
    [undefined]. *)
Definition get (v : JsVal) (k : string) : Outcome JsVal :=
  match v with
  | JUndefined | JNull =>
      Raised (TypeError ("Cannot read properties of undefined or null (reading '"
                         ++ k ++ "')")%string)
  | JBool _ | JNum _ | JStr _ | JArr _ => Done JUndefined
  | JObj fs =>
      match lookup k fs with
      | Some x => Done x
      | None => Done JUndefined
      end
  end.

(** ['literal' + v]: the string [v] is coerced to.  An array is
    rendered by joining the renderings of its elements with commas,
    [undefined] and [null] elements counting as empty.  A JSON object is
    rendered by [Object.prototype.toString] unless it carries an own
    [toString] property, which (never being callable in JSON data)
    makes the coercion throw. *)
Fixpoint to_string (v : JsVal) : Outcome string :=
  match v with
  | JUndefined => Done "undefined"
  | JNull => Done "null"
  | JBool true => Done "true"
  | JBool false => Done "false"
  | JNum printed => Done printed
  | JStr s => Done s
  | JArr elements =>
      (fix join (l : list JsVal) : Outcome string :=
         match l with
         | [] => Done EmptyString
         | x :: rest =>
             match match x with
                   | JUndefined | JNull => Done EmptyString
                   | _ => to_string x
                   end
             with
             | Done s =>
                 match rest with
                 | [] => Done s
                 | _ :: _ =>
                     match join rest with
                     | Done r => Done (s ++ "," ++ r)%string
                     | o => o
                     end
                 end
             | o => o
             end
         end) elements
  | JObj fs =>
      match lookup "toString" fs with
      | Some _ => Raised (TypeError "Cannot convert object to primitive value")
      | None => Done "[object Object]"
      end
  end.

(** The object literal [{ message: m }]. *)
Definition message (m : string) : JsVal := JObj [("message", JStr m)].

(** [a ?? b] on an optional value. *)
Definition nullish {A} (a : option A) (b : A) : A :=
  match a with
  | Some x => x
  | None => b
  end.

End Js.

(** ** Data model *)

(** [User extends { id: string }]: the [id] the strategy reads and the
    other properties of the application user, which it only passes on. *)
Record User : Type := mkUser {
  id : string;
  attrs : list (string * JsVal)
}.

Inductive CredentialDeviceType : Type := singleDevice | multiDevice.

Record RegistrationInfo : Type := mkRegistrationInfo {
  counter : Z;
  credentialID : list Byte.byte;
  credentialPublicKey : list Byte.byte;
  userVerified : bool;
  credentialDeviceType : CredentialDeviceType;
  credentialBackedUp : bool
}.

Record SessionData : Type := mkSessionData {
  challenge : string;
  user : option User
}.

Record AuthenticatorDevice : Type := mkAuthenticatorDevice {
  authCredentialID : list Byte.byte;
  authCredentialPublicKey : list Byte.byte;
  authCounter : Z
}.

Record UserWithAuthenticator : Type := mkUserWithAuthenticator {
  uwaUser : User;
  authenticator : AuthenticatorDevice
}.

(** The parts of the express request the strategy reads. *)
Record Request : Type := mkRequest {
  body : JsVal;
  headersOrigin : option string;
  hostname : string
}.

(** Arguments of [webauthn.verifyRegistrationResponse]. *)
Record RegistrationVerification : Type := mkRegistrationVerification {
  rvResponse : JsVal;
  rvExpectedChallenge : string;
  rvExpectedOrigin : string;
  rvExpectedRPID : string;
  rvSupportedAlgorithmIDs : option (list Z);
  rvRequireUserVerification : option bool
}.

(** Arguments of [webauthn.verifyAuthenticationResponse]. *)
Record AuthenticationVerification : Type := mkAuthenticationVerification {
  avAuthenticator : AuthenticatorDevice;
  avResponse : JsVal;
  avExpectedChallenge : string;
  avExpectedOrigin : string;
  avExpectedRPID : string;
  avRequireUserVerification : option bool
}.

(** What [verifyRegistrationResponse] resolves to. *)
Record VerifiedRegistrationResponse : Type := mkVerifiedRegistrationResponse {
  verified : bool;
  registrationInfo : option RegistrationInfo
}.

(** One invocation [conclude(err, result, info)] of a completion
    callback handed to a developer function. *)
Record Completion (R : Type) : Type := mkCompletion {
  cErr : JsVal;
  cResult : option R;
  cInfo : JsVal
}.
Arguments mkCompletion {R} cErr cResult cInfo.
Arguments cErr {R} c.
Arguments cResult {R} c.
Arguments cInfo {R} c.

(** A developer supplied function.  [fnLength] is its declared
    parameter count ([Function.length]).  [fnDirect] is what awaiting
    it gives when it is called without a completion callback.
    [fnCallback] is what it does when it is called with one: the
    invocations of the callback it performs, now or later, in order,
    and the value it throws synchronously, if any (what it returns is
    dropped by the strategy). *)
Record DeveloperFn (Args R : Type) : Type := mkDeveloperFn {
  fnLength : nat;
  fnDirect : Request -> Args -> Outcome (option R);
  fnCallback : Request -> Args -> list (Completion R) * option JsVal
}.
Arguments mkDeveloperFn {Args R} fnLength fnDirect fnCallback.
Arguments fnLength {Args R} d.
Arguments fnDirect {Args R} d.
Arguments fnCallback {Args R} d.

(** [(req, user, registrationInfo, conclude?)] *)
Definition RegistrationFn : Type := DeveloperFn (User * RegistrationInfo) User.
(** [(req, credentialId, userHandle, conclude?)]; both strings come
    straight from the body and are whatever the client sent. *)
Definition AuthenticationFn : Type :=
  DeveloperFn (JsVal * JsVal) UserWithAuthenticator.

Record StrategyOptions : Type := mkStrategyOptions {
  passReqToCallback : option bool;
  extractor : Request -> Outcome SessionData;
  expectedRPID : string;
  expectedOrigin : option string;
  supportedAlgorithmIDs : option (list Z);
  requireUserVerification : option bool
}.

Record Strategy : Type := mkStrategy {
  options : StrategyOptions;
  authenticationFn : AuthenticationFn;
  registrationFn : RegistrationFn
}.

(** What happens next on the event loop once a callback-style lookup
    function has been called: the function invokes the completion
    callback with the next of its completions, or the verification
    awaited by its invocation number [k] (counting from 0) settles and
    that invocation goes on. *)
Inductive Turn : Type :=
| Invokes
| Settles (k : nat).

(** The JavaScript platform and the [@simplewebauthn/server] library.
    [decodeClientData s] stands for
    [JSON.parse(Buffer.from(s, 'base64url').toString())];
    [verifyAuthenticationResponse] resolves to a value of which the
    strategy only tests the truthiness.  [timeline] is the order in
    which the invocations of the asynchronous completion callback of
    the lookup path and the settling of their verifications follow
    each other; when it ends, the function makes the invocations it
    has left in one synchronous burst, and the verifications awaited
    settle in the order of their invocations. *)
Record Platform : Type := mkPlatform {
  decodeClientData : JsVal -> Outcome JsVal;
  verifyRegistrationResponse :
    RegistrationVerification -> Outcome VerifiedRegistrationResponse;
  verifyAuthenticationResponse : AuthenticationVerification -> Outcome JsVal;
  timeline : list Turn
}.

(** ** Events and runs *)

Inductive Event : Type :=
| EVerifyRegistration (a : RegistrationVerification)
| EVerifyAuthentication (a : AuthenticationVerification)
| ERegistrationFn (u : User) (ri : RegistrationInfo) (withConclude : bool)
| EAuthenticationFn (credentialId userHandle : JsVal) (withConclude : bool)
| EConcludeRegistration (c : Completion User)
| EConcludeAuthentication (c : Completion UserWithAuthenticator)
| ELog (v : JsVal)
| ESuccess (u : User) (info : JsVal)
| EFail (info : JsVal) (status : option Z)
| EError (err : JsVal).

Definition Run (A : Type) : Type := (list Event * Outcome A)%type.

Definition ret {A} (a : A) : Run A := ([], Done a).

(** Sequencing: the continuation runs when the first part returns; a
    throw or a promise that never settles ends the run there. *)
Definition bind {A B} (m : Run A) (f : A -> Run B) : Run B :=
  match snd m with
  | Done a => (fst m ++ fst (f a), snd (f a))
  | Raised e => (fst m, Raised e)
  | Pending => (fst m, Pending)
  end.

Notation "x <- m ;; k" := (bind m (fun x => k))
  (at level 61, m at next level, right associativity).
Notation "m ;;; k" := (bind m (fun _ => k))
  (at level 61, right associativity).

Definition emit (e : Event) : Run unit := ([e], Done tt).

(** [await p], and the evaluation of an expression that may throw. *)
Definition await {A} (o : Outcome A) : Run A := ([], o).

(** [try { m } catch (err) { h err }] *)
Definition try_catch {A} (m : Run A) (h : JsVal -> Run A) : Run A :=
  match snd m with
  | Raised e => (fst m ++ fst (h e), snd (h e))
  | _ => m
  end.

(** A call whose result nobody waits for: its events happen, the caller
    goes on whatever becomes of it. *)
Definition detach {A} (m : Run A) : Run unit := (fst m, Done tt).

(** [throw e] when there is something to throw. *)
Definition rethrow (e : option JsVal) : Run unit :=
  match e with
  | Some x => ([], Raised x)
  | None => ret tt
  end.

Fixpoint each {A} (f : A -> Run unit) (l : list A) : Run unit :=
  match l with
  | [] => ret tt
  | x :: l' => f x ;;; each f l'
  end.

(** The three terminal signals of passport. *)
Definition success (u : User) (info : JsVal) : Run unit := emit (ESuccess u info).
Definition fail (info : JsVal) (status : option Z) : Run unit :=
  emit (EFail info status).
Definition error (err : JsVal) : Run unit := emit (EError err).

(** ** The strategy *)

Section Authenticate.

Variable webauthn : Platform.
Variable self : Strategy.

(** [this.options.expectedOrigin ?? req.headers.origin ?? req.hostname] *)
Definition expectedOriginOf (req : Request) : string :=
  Js.nullish (expectedOrigin (options self))
             (Js.nullish (headersOrigin req) (hostname req)).

(** The object passed to [webauthn.verifyRegistrationResponse]. *)
Definition registrationArgs (req : Request) (challenge : string)
    (registration : JsVal) : RegistrationVerification :=
  {| rvResponse := registration;
     rvExpectedChallenge := challenge;
     rvExpectedOrigin := expectedOriginOf req;
     rvExpectedRPID := expectedRPID (options self);
     rvSupportedAlgorithmIDs := supportedAlgorithmIDs (options self);
     rvRequireUserVerification := requireUserVerification (options self) |}.

(** The inner function [concludeRegistration(err, user, info)]. *)
Definition concludeRegistration (c : Completion User) : Run unit :=
  emit (EConcludeRegistration c) ;;;
  if Js.truthy (cErr c) then error (cErr c)
  else match cResult c with
       | None => fail (cInfo c) None
       | Some user => success user (cInfo c)
       end.

(** The object passed to [webauthn.verifyAuthenticationResponse]. *)
Definition authenticationArgs (req : Request) (challenge : string)
    (authentication : JsVal) (authenticator : AuthenticatorDevice)
  : AuthenticationVerification :=
  {| avAuthenticator := authenticator;
     avResponse := authentication;
     avExpectedChallenge := challenge;
     avExpectedOrigin := expectedOriginOf req;
     avExpectedRPID := expectedRPID (options self);
     avRequireUserVerification := requireUserVerification (options self) |}.

(** The inner function [verifyAuthenticator(authenticator)]; [req],
    [challenge] and [authentication] are the variables it closes
    over. *)
Definition verifyAuthenticator (req : Request) (challenge : string)
    (authentication : JsVal) (authenticator : AuthenticatorDevice) : Run JsVal :=
  emit (EVerifyAuthentication
          (authenticationArgs req challenge authentication authenticator)) ;;;
  await (verifyAuthenticationResponse webauthn
           (authenticationArgs req challenge authentication authenticator)).

(** The inner function
    [concludeAuthentication(err, userWithAuthenticator, info)].  The
    [try] block yields whether control falls through to the
    statement after it. *)
Definition concludeAuthentication (req : Request) (challenge : string)
    (authentication : JsVal) (c : Completion UserWithAuthenticator) : Run unit :=
  emit (EConcludeAuthentication c) ;;;
  if Js.truthy (cErr c) then error (cErr c)
  else match cResult c with
       | None => fail (cInfo c) None
       | Some userWithAuthenticator =>
           goOn <- try_catch
             (v <- verifyAuthenticator req challenge authentication
                     (authenticator userWithAuthenticator) ;;
              if negb (Js.truthy v)
              then fail (Js.message "Authenticator verification failed")
                        (Some 400%Z) ;;; ret false
              else ret true)
             (fun err => emit (ELog err) ;;; error err ;;; ret false) ;;
           if (goOn : bool)
           then success (uwaUser userWithAuthenticator) (cInfo c)
           else ret tt
       end.

End Authenticate.

(** ** Asynchronous completions

    [concludeAuthentication] is an [async] function: an invocation
    runs up to its [await] of the verifier and goes on when the
    verification has settled, and in between the lookup function may
    invoke the callback again. *)

(** The platform on which no verification settles. *)
Definition suspended (webauthn : Platform) : Platform :=
  {| decodeClientData := decodeClientData webauthn;
     verifyRegistrationResponse := verifyRegistrationResponse webauthn;
     verifyAuthenticationResponse := fun _ => Pending;
     timeline := timeline webauthn |}.

Section Completions.

Variable webauthn : Platform.
Variable self : Strategy.
Variable req : Request.
Variable challenge : string.
Variable authentication : JsVal.

(** The events of an invocation up to its [await]: those of the
    invocation whose verification never settles. *)
Definition started (c : Completion UserWithAuthenticator) : list Event :=
  fst (concludeAuthentication (suspended webauthn) self req challenge
         authentication c).

(** The events of an invocation after its [await]: the rest of its
    run. *)
Definition resumed (c : Completion UserWithAuthenticator) : list Event :=
  skipn (List.length (started c))
        (fst (concludeAuthentication webauthn self req challenge
                authentication c)).

(** The events of the invocations [todo] still to be made and of the
    invocations awaiting their verification, [pending], each with its
    number and the events it has left, in the order of the timeline;
    [made] counts the invocations made so far. *)
Fixpoint play (turns : list Turn) (made : nat)
    (todo : list (Completion UserWithAuthenticator))
    (pending : list (nat * list Event)) : list Event :=
  match turns with
  | [] => flat_map started todo ++ flat_map snd pending ++ flat_map resumed todo
  | Invokes :: turns' =>
      match todo with
      | [] => play turns' made [] pending
      | c :: todo' =>
          started c ++
          play turns' (S made) todo' (pending ++ [(made, resumed c)])
      end
  | Settles k :: turns' =>
      flat_map snd (filter (fun q => Nat.eqb (fst q) k) pending) ++
      play turns' made todo (filter (fun q => negb (Nat.eqb (fst q) k)) pending)
  end.

End Completions.

(** The timeline on which the lookup function makes [n] invocations
    and awaits, after each, that its verification has settled; [made]
    is the number of the first. *)
Fixpoint inTurn (made n : nat) : list Turn :=
  match n with
  | 0 => []
  | S n' => Invokes :: Settles made :: inTurn (S made) n'
  end.

(** Events that happen while nobody waits for them. *)
Definition happen (t : list Event) : Run unit := (t, Done tt).

Definition authenticate (webauthn : Platform) (self : Strategy) (req : Request)
  : Run unit :=
  let body := body req in
  session <- await (extractor (options self) req) ;;
  let challenge := challenge session in
  let user := user session in
  response <- await (Js.get body "response") ;;
  clientDataJSON <- await (Js.get response "clientDataJSON") ;;
  clientData <- await (decodeClientData webauthn clientDataJSON) ;;
  type <- await (Js.get clientData "type") ;;
  if Js.strict_eq_str type "webauthn.create" then
    match user with
    | None => fail (Js.message "User not in session") (Some 404%Z)
    | Some user =>
        (* Registration *)
        let registration := body in
        emit (EVerifyRegistration (registrationArgs self req challenge registration)) ;;;
        registrationResponse <-
          await (verifyRegistrationResponse webauthn
                   (registrationArgs self req challenge registration)) ;;
        match registrationInfo registrationResponse with
        | None => fail (Js.message "Registration failed.") (Some 500%Z)
        | Some info =>
            (* Choose between async/await or callback *)
            if (fnLength (registrationFn self) <? 4)%nat then
              try_catch
                (emit (ERegistrationFn user info false) ;;;
                 newUser <- await (fnDirect (registrationFn self) req (user, info)) ;;
                 match newUser with
                 | None => fail (Js.message "User not found") (Some 404%Z)
                 | Some newUser => success newUser JUndefined
                 end)
                (fun err => error err)
            else
              emit (ERegistrationFn user info true) ;;;
              let (calls, thrown) :=
                fnCallback (registrationFn self) req (user, info) in
              each (fun c => detach (concludeRegistration c)) calls ;;;
              rethrow thrown
        end
    end
  else if Js.strict_eq_str type "webauthn.get" then
    (* Authentication *)
    let authentication := body in
    response <- await (Js.get authentication "response") ;;
    userHandle <- await (Js.get response "userHandle") ;;
    if match user with
       | Some user =>
           Js.truthy userHandle && negb (Js.strict_eq_str userHandle (id user))
       | None => false
       end
    then fail (Js.message "User handle does not match session") (Some 400%Z)
    else if negb (Js.truthy userHandle)
    then fail (Js.message "User handle not present") (Some 400%Z)
    else
      let handle :=
        Js.nullish (option_map (fun u => JStr (id u)) user) userHandle in
      (* Choose between async/await or callback *)
      if (fnLength (authenticationFn self) <? 4)%nat then
        try_catch
          (credentialId <- await (Js.get body "id") ;;
           emit (EAuthenticationFn credentialId handle false) ;;;
           userWithAuthenticator <-
             await (fnDirect (authenticationFn self) req (credentialId, handle)) ;;
           match userWithAuthenticator with
           | None => fail (Js.message "Invelid credential") (Some 400%Z)
           | Some userWithAuthenticator =>
               v <- verifyAuthenticator webauthn self req challenge authentication
                      (authenticator userWithAuthenticator) ;;
               if negb (Js.truthy v)
               then fail (Js.message "Authenticator verification failed")
                         (Some 400%Z)
               else success (uwaUser userWithAuthenticator) JUndefined
           end)
          (fun err => error err)
      else
        credentialId <- await (Js.get body "id") ;;
        emit (EAuthenticationFn credentialId handle true) ;;;
        let (calls, thrown) :=
          fnCallback (authenticationFn self) req (credentialId, handle) in
        happen (play webauthn self req challenge authentication
                  (timeline webauthn) 0 calls []) ;;;
        rethrow thrown
  else
    (* Unsupported response type *)
    text <- await (Js.to_string type) ;;
    fail (Js.message ("Unsupported response type: " ++ text)%string)
         (Some 400%Z).


(** ** Observations on a run *)

Definition isSignal (e : Event) : bool :=
  match e with
  | ESuccess _ _ | EFail _ _ | EError _ => true
  | _ => false
  end.

(** The terminal signals of a trace, in order. *)
Definition signals (t : list Event) : list Event := filter isSignal t.

Definition isCollaboratorCall (e : Event) : bool :=
  match e with
  | EVerifyRegistration _ | EVerifyAuthentication _
  | ERegistrationFn _ _ _ | EAuthenticationFn _ _ _ => true
  | _ => false
  end.

(** The calls to the verifier and to the developer functions. *)
Definition collaboratorCalls (t : list Event) : list Event :=
  filter isCollaboratorCall t.

Definition isLookupCall (e : Event) : bool :=
  match e with
  | EAuthenticationFn _ _ _ => true
  | _ => false
  end.

Definition lookupCalls (t : list Event) : list Event := filter isLookupCall t.

Definition isConclude (e : Event) : bool :=
  match e with
  | EConcludeRegistration _ | EConcludeAuthentication _ => true
  | _ => false
  end.

(** The invocations of a completion callback. *)
Definition concludes (t : list Event) : list Event := filter isConclude t.

(** An event other than a failure. *)
Definition notFail (e : Event) : bool :=
  match e with
  | EFail _ _ => false
  | _ => true
  end.

(** The values written with [console.error]. *)
Definition logged (t : list Event) : list JsVal :=
  flat_map (fun e => match e with ELog v => [v] | _ => [] end) t.

(** What the request and the session are, as the claims speak of them. *)

(** The [type] field of the decoded client data:
    [JSON.parse(Buffer.from(body.response.clientDataJSON, 'base64url')).type]. *)
Definition clientDataTypeOf (webauthn : Platform) (req : Request) : Outcome JsVal :=
  match Js.get (body req) "response" with
  | Done response =>
      match Js.get response "clientDataJSON" with
      | Done clientDataJSON =>
          match decodeClientData webauthn clientDataJSON with
          | Done clientData => Js.get clientData "type"
          | o => o
          end
      | o => o
      end
  | o => o
  end.

(** [body.response.userHandle] *)
Definition userHandleOf (req : Request) : Outcome JsVal :=
  match Js.get (body req) "response" with
  | Done response => Js.get response "userHandle"
  | o => o
  end.

(** A request is a ceremony of type [type] in session [session] when
    the extractor yields [session] and the client data decodes to an
    object whose [type] field is [type]. *)
Definition Ceremony (webauthn : Platform) (self : Strategy) (req : Request)
    (session : SessionData) (type : JsVal) : Prop :=
  extractor (options self) req = Done session /\
  clientDataTypeOf webauthn req = Done type.

(** An assertion that passes the two user-handle checks: the handle is
    truthy and equals the id of the session user when there is one. *)
Definition Assertion (webauthn : Platform) (self : Strategy) (req : Request)
    (session : SessionData) (userHandle : JsVal) : Prop :=
  Ceremony webauthn self req session (JStr "webauthn.get") /\
  userHandleOf req = Done userHandle /\
  Js.truthy userHandle = true /\
  (forall u, user session = Some u -> userHandle = JStr (id u)).

(** [user?.id ?? userHandle] *)
Definition resolvedIdentity (session : SessionData) (userHandle : JsVal) : JsVal :=
  Js.nullish (option_map (fun u => JStr (id u)) (user session)) userHandle.

(** Both developer functions are written in the promise/return style. *)
Definition promiseStyle (self : Strategy) : Prop :=
  fnLength (registrationFn self) < 4 /\ fnLength (authenticationFn self) < 4.

(** A failure that the strategy words itself: [{ message }] and one of
    the three status hints. *)
Definition coreFailure (info : JsVal) (status : option Z) : Prop :=
  (exists m, info = Js.message m) /\
  (status = Some 400%Z \/ status = Some 404%Z \/ status = Some 500%Z).

(** A failure that relays a completion callback invoked without error
    and without result: the [info] of that invocation, no status. *)
Definition relayedFailure (t : list Event) (info : JsVal) (status : option Z) : Prop :=
  status = None /\
  ((exists c, In (EConcludeRegistration c) t /\ Js.truthy (cErr c) = false /\
              cResult c = None /\ cInfo c = info) \/
   (exists c, In (EConcludeAuthentication c) t /\ Js.truthy (cErr c) = false /\
              cResult c = None /\ cInfo c = info)).

(** The dual invocation contract in the words of the specification: an
    error argument maps to the fatal error signal, a missing result to a
    recoverable failure carrying [info], anything else to success
    carrying the result and [info]. *)
Definition completionSignal {R} (userOf : R -> User) (c : Completion R) : Event :=
  if Js.truthy (cErr c) then EError (cErr c)
  else match cResult c with
       | None => EFail (cInfo c) None
       | Some r => ESuccess (userOf r) (cInfo c)
       end.

(** ** Invariants of runs *)

(** A part of a run that emits no terminal signal and hands out no
    completion. *)
Definition Silent {A} (m : Run A) : Prop :=
  signals (fst m) = [] /\ concludes (fst m) = [].

(** A run that decides by itself: one terminal signal when it returns,
    none when it throws or never settles, no completion callback. *)
Definition Strict (r : Run unit) : Prop :=
  concludes (fst r) = [] /\
  match snd r with
  | Done _ => List.length (signals (fst r)) = 1
  | _ => signals (fst r) = []
  end.

(** No more terminal signals than invocations of a completion
    callback, the one signal of a run that decides by itself apart. *)
Definition Bounded (r : Run unit) : Prop :=
  List.length (signals (fst r)) <= Nat.max 1 (List.length (concludes (fst r))).

Definition Disciplined (self : Strategy) (r : Run unit) : Prop :=
  Bounded r /\ (promiseStyle self -> Strict r).

(** A developer function is called with the completion callback. *)
Definition isHandOver (e : Event) : bool :=
  match e with
  | ERegistrationFn _ _ true | EAuthenticationFn _ _ true => true
  | _ => false
  end.

(** The run hands the decision over to a callback-style function. *)
Definition handedOver (t : list Event) : bool := existsb isHandOver t.

(** A run that does not hand over decides by itself. *)
Definition Unattended (r : Run unit) : Prop :=
  handedOver (fst r) = false -> Strict r.

(** Every recoverable failure of a trace is worded by the strategy or
    relays a completion of that trace. *)
Definition failuresAccounted (t : list Event) : Prop :=
  forall info status,
    In (EFail info status) t ->
    coreFailure info status \/ relayedFailure t info status.

(** ** Concrete ceremonies *)

Module Fixture.

Definition SyntaxError : JsVal :=
  JObj [("name", JStr "SyntaxError"); ("message", JStr "Unexpected token")].

(** base64url of [{"type":"webauthn.create"}], of
    [{"type":"webauthn.get"}] and of [{"type":"payment.get"}];
    [notJson] is the base64url of the text [not json]. *)
Definition createClientData : string := "eyJ0eXBlIjoid2ViYXV0aG4uY3JlYXRlIn0".
Definition getClientData : string := "eyJ0eXBlIjoid2ViYXV0aG4uZ2V0In0".
Definition paymentClientData : string := "eyJ0eXBlIjoicGF5bWVudC5nZXQifQ".
Definition notJson : string := "bm90IGpzb24".

Definition decode (v : JsVal) : Outcome JsVal :=
  match v with
  | JStr s =>
      if String.eqb s createClientData
      then Done (JObj [("type", JStr "webauthn.create")])
      else if String.eqb s getClientData
      then Done (JObj [("type", JStr "webauthn.get")])
      else if String.eqb s paymentClientData
      then Done (JObj [("type", JStr "payment.get")])
      else Raised SyntaxError
  | _ => Raised (Js.TypeError "The first argument must be of type string")
  end.

Definition info0 : RegistrationInfo :=
  {| counter := 0;
     credentialID := [Byte.x01; Byte.x02];
     credentialPublicKey := [Byte.xa5; Byte.x01; Byte.x02];
     userVerified := true;
     credentialDeviceType := singleDevice;
     credentialBackedUp := false |}.

Definition device0 : AuthenticatorDevice :=
  {| authCredentialID := [Byte.x01; Byte.x02];
     authCredentialPublicKey := [Byte.xa5; Byte.x01; Byte.x02];
     authCounter := 7 |}.

Definition boom : JsVal :=
  JObj [("name", JStr "Error"); ("message", JStr "signature check blew up")].

(** A verifier that accepts everything. *)
Definition accepting : Platform :=
  {| decodeClientData := decode;
     verifyRegistrationResponse := fun _ =>
       Done {| verified := true; registrationInfo := Some info0 |};
     verifyAuthenticationResponse := fun _ =>
       Done (JObj [("verified", JBool true)]);
     timeline := [] |}.

(** A verifier that throws on every assertion. *)
Definition throwing : Platform :=
  {| decodeClientData := decode;
     verifyRegistrationResponse := fun _ =>
       Done {| verified := true; registrationInfo := Some info0 |};
     verifyAuthenticationResponse := fun _ => Raised boom;
     timeline := [] |}.

Definition u1 : User := {| id := "u1"; attrs := [("username", JStr "ada")] |}.
Definition u2 : User := {| id := "u2"; attrs := [("username", JStr "bob")] |}.

Definition opts (sessionUser : option User) : StrategyOptions :=
  {| passReqToCallback := None;
     extractor := fun _ => Done {| challenge := "c1"; user := sessionUser |};
     expectedRPID := "example.com";
     expectedOrigin := Some "https://example.com";
     supportedAlgorithmIDs := None;
     requireUserVerification := Some true |}.

Definition ceremony (clientDataJSON : string) (userHandle : JsVal) : Request :=
  {| body := JObj [("id", JStr "AQI");
                   ("response", JObj [("clientDataJSON", JStr clientDataJSON);
                                      ("userHandle", userHandle)])];
     headersOrigin := Some "https://example.com";
     hostname := "example.com" |}.

Definition createReq : Request := ceremony createClientData JUndefined.
Definition getReq : Request := ceremony getClientData (JStr "u2").
Definition emptyHandleReq : Request := ceremony getClientData (JStr EmptyString).
Definition paymentReq : Request := ceremony paymentClientData JUndefined.
Definition notJsonReq : Request := ceremony notJson JUndefined.

(** [async (req, user, registrationInfo) => ...], resolving to [r]. *)
Definition registerDirect (r : Outcome (option User)) : RegistrationFn :=
  {| fnLength := 3;
     fnDirect := fun _ _ => r;
     fnCallback := fun _ _ => ([], None) |}.

(** [(req, user, registrationInfo, conclude) => ...], performing the
    completions [cs]. *)
Definition registerCallback (cs : list (Completion User)) : RegistrationFn :=
  {| fnLength := 4;
     fnDirect := fun _ _ => Done None;
     fnCallback := fun _ _ => (cs, None) |}.

Definition loginDirect (r : Outcome (option UserWithAuthenticator))
  : AuthenticationFn :=
  {| fnLength := 3;
     fnDirect := fun _ _ => r;
     fnCallback := fun _ _ => ([], None) |}.

Definition loginCallback (cs : list (Completion UserWithAuthenticator))
  : AuthenticationFn :=
  {| fnLength := 4;
     fnDirect := fun _ _ => Done None;
     fnCallback := fun _ _ => (cs, None) |}.

Definition pairing2 : UserWithAuthenticator :=
  {| uwaUser := u2; authenticator := device0 |}.

Definition strategy (sessionUser : option User) (login : AuthenticationFn)
    (register : RegistrationFn) : Strategy :=
  {| options := opts sessionUser;
     authenticationFn := login;
     registrationFn := register |}.

Definition dbDown : JsVal :=
  JObj [("name", JStr "Error"); ("message", JStr "Couldn't register user")].

(** The registration function of the README when [User.create]
    resolves to nothing: [conclude(new Error(...))] is followed by
    [conclude(null, newUser)]. *)
Definition readmeRegister : RegistrationFn :=
  registerCallback [mkCompletion dbDown None JUndefined;
                    mkCompletion JNull None JUndefined].

(** A callback-style registration function that reports no user and
    gives no reason: [conclude(null, undefined)]. *)
Definition silentRegister : RegistrationFn :=
  registerCallback [mkCompletion JNull None JUndefined].

Definition session (sessionUser : option User) : SessionData :=
  {| challenge := "c1"; user := sessionUser |}.

Definition verified0 : VerifiedRegistrationResponse :=
  {| verified := true; registrationInfo := Some info0 |}.

(** Promise-style functions: registration resolves to [u1], the
    lookup to the pairing of [u2]. *)
Definition promises (sessionUser : option User) : Strategy :=
  strategy sessionUser (loginDirect (Done (Some pairing2)))
           (registerDirect (Done (Some u1))).

(** Promise-style functions that find nobody. *)
Definition nobody (sessionUser : option User) : Strategy :=
  strategy sessionUser (loginDirect (Done None)) (registerDirect (Done None)).

(** A verifier that rejects every attestation by throwing, as
    [verifyRegistrationResponse] does on a challenge it does not
    expect. *)
Definition badChallenge : JsVal :=
  JObj [("name", JStr "Error");
        ("message", JStr "Unexpected registration response challenge")].

Definition rejecting : Platform :=
  {| decodeClientData := decode;
     verifyRegistrationResponse := fun _ => Raised badChallenge;
     verifyAuthenticationResponse := fun _ => Raised boom;
     timeline := [] |}.

End Fixture.

(** ** The events a run can carry *)

(** Every event of a trace satisfies [E]. *)
Definition allEvents (E : Event -> Prop) (t : list Event) : Prop :=
  forall e, In e t -> E e.

(** A registration ceremony whose attestation the verifier accepted:
    the session carries [u] and the verifier resolved to [rr], which
    holds the registration info [ri]. *)
Definition Registered (webauthn : Platform) (self : Strategy) (req : Request)
    (session : SessionData) (u : User) (rr : VerifiedRegistrationResponse)
    (ri : RegistrationInfo) : Prop :=
  Ceremony webauthn self req session (JStr "webauthn.create") /\
  user session = Some u /\
  verifyRegistrationResponse webauthn
    (registrationArgs self req (challenge session) (body req)) = Done rr /\
  registrationInfo rr = Some ri.

(** An assertion that reaches the lookup function, with [body.id]. *)
Definition Looked (webauthn : Platform) (self : Strategy) (req : Request)
    (session : SessionData) (userHandle credentialId : JsVal) : Prop :=
  Assertion webauthn self req session userHandle /\
  Js.get (body req) "id" = Done credentialId.

(** The events of one invocation of [concludeAuthentication], each
    with the conditions under which the code produces it. *)
Inductive ConcludedAuthentication (webauthn : Platform) (self : Strategy)
    (req : Request) (challenge : string) (authentication : JsVal)
    (c : Completion UserWithAuthenticator) : Event -> Prop :=
| ca_invoked :
    ConcludedAuthentication webauthn self req challenge authentication c
      (EConcludeAuthentication c)
| ca_error :
    Js.truthy (cErr c) = true ->
    ConcludedAuthentication webauthn self req challenge authentication c
      (EError (cErr c))
| ca_relay :
    Js.truthy (cErr c) = false -> cResult c = None ->
    ConcludedAuthentication webauthn self req challenge authentication c
      (EFail (cInfo c) None)
| ca_verify p :
    Js.truthy (cErr c) = false -> cResult c = Some p ->
    ConcludedAuthentication webauthn self req challenge authentication c
      (EVerifyAuthentication
         (authenticationArgs self req challenge authentication (authenticator p)))
| ca_refused p v :
    Js.truthy (cErr c) = false -> cResult c = Some p ->
    verifyAuthenticationResponse webauthn
      (authenticationArgs self req challenge authentication (authenticator p))
      = Done v ->
    Js.truthy v = false ->
    ConcludedAuthentication webauthn self req challenge authentication c
      (EFail (Js.message "Authenticator verification failed") (Some 400%Z))
| ca_success p v :
    Js.truthy (cErr c) = false -> cResult c = Some p ->
    verifyAuthenticationResponse webauthn
      (authenticationArgs self req challenge authentication (authenticator p))
      = Done v ->
    Js.truthy v = true ->
    ConcludedAuthentication webauthn self req challenge authentication c
      (ESuccess (uwaUser p) (cInfo c))
| ca_logged p e :
    Js.truthy (cErr c) = false -> cResult c = Some p ->
    verifyAuthenticationResponse webauthn
      (authenticationArgs self req challenge authentication (authenticator p))
      = Raised e ->
    ConcludedAuthentication webauthn self req challenge authentication c (ELog e)
| ca_thrown p e :
    Js.truthy (cErr c) = false -> cResult c = Some p ->
    verifyAuthenticationResponse webauthn
      (authenticationArgs self req challenge authentication (authenticator p))
      = Raised e ->
    ConcludedAuthentication webauthn self req challenge authentication c
      (EError e).

(** The events of [authenticate], each with the conditions under which
    the code produces it. *)
Inductive Emitted (webauthn : Platform) (self : Strategy) (req : Request)
  : Event -> Prop :=
| em_no_session_user session :
    Ceremony webauthn self req session (JStr "webauthn.create") ->
    user session = None ->
    Emitted webauthn self req
      (EFail (Js.message "User not in session") (Some 404%Z))
| em_verify_registration session u :
    Ceremony webauthn self req session (JStr "webauthn.create") ->
    user session = Some u ->
    Emitted webauthn self req
      (EVerifyRegistration
         (registrationArgs self req (challenge session) (body req)))
| em_registration_failed session u rr :
    Ceremony webauthn self req session (JStr "webauthn.create") ->
    user session = Some u ->
    verifyRegistrationResponse webauthn
      (registrationArgs self req (challenge session) (body req)) = Done rr ->
    registrationInfo rr = None ->
    Emitted webauthn self req
      (EFail (Js.message "Registration failed.") (Some 500%Z))
| em_registration_fn session u rr ri :
    Registered webauthn self req session u rr ri ->
    Emitted webauthn self req
      (ERegistrationFn u ri (negb (fnLength (registrationFn self) <? 4)%nat))
| em_user_not_found session u rr ri :
    Registered webauthn self req session u rr ri ->
    fnLength (registrationFn self) < 4 ->
    fnDirect (registrationFn self) req (u, ri) = Done None ->
    Emitted webauthn self req
      (EFail (Js.message "User not found") (Some 404%Z))
| em_registered session u rr ri newUser :
    Registered webauthn self req session u rr ri ->
    fnLength (registrationFn self) < 4 ->
    fnDirect (registrationFn self) req (u, ri) = Done (Some newUser) ->
    Emitted webauthn self req (ESuccess newUser JUndefined)
| em_registration_error session u rr ri err :
    Registered webauthn self req session u rr ri ->
    fnLength (registrationFn self) < 4 ->
    fnDirect (registrationFn self) req (u, ri) = Raised err ->
    Emitted webauthn self req (EError err)
| em_conclude_registration session u rr ri c :
    Registered webauthn self req session u rr ri ->
    4 <= fnLength (registrationFn self) ->
    In c (fst (fnCallback (registrationFn self) req (u, ri))) ->
    Emitted webauthn self req (EConcludeRegistration c)
| em_registration_signal session u rr ri c :
    Registered webauthn self req session u rr ri ->
    4 <= fnLength (registrationFn self) ->
    In c (fst (fnCallback (registrationFn self) req (u, ri))) ->
    Emitted webauthn self req (completionSignal (fun user => user) c)
| em_mismatch session u h :
    Ceremony webauthn self req session (JStr "webauthn.get") ->
    user session = Some u ->
    userHandleOf req = Done h ->
    Js.truthy h = true ->
    h <> JStr (id u) ->
    Emitted webauthn self req
      (EFail (Js.message "User handle does not match session") (Some 400%Z))
| em_not_present session h :
    Ceremony webauthn self req session (JStr "webauthn.get") ->
    userHandleOf req = Done h ->
    Js.truthy h = false ->
    Emitted webauthn self req
      (EFail (Js.message "User handle not present") (Some 400%Z))
| em_lookup session h cred :
    Looked webauthn self req session h cred ->
    Emitted webauthn self req
      (EAuthenticationFn cred (resolvedIdentity session h)
         (negb (fnLength (authenticationFn self) <? 4)%nat))
| em_invalid_credential session h cred :
    Looked webauthn self req session h cred ->
    fnLength (authenticationFn self) < 4 ->
    fnDirect (authenticationFn self) req (cred, resolvedIdentity session h)
      = Done None ->
    Emitted webauthn self req
      (EFail (Js.message "Invelid credential") (Some 400%Z))
| em_lookup_error session h cred err :
    Looked webauthn self req session h cred ->
    fnLength (authenticationFn self) < 4 ->
    fnDirect (authenticationFn self) req (cred, resolvedIdentity session h)
      = Raised err ->
    Emitted webauthn self req (EError err)
| em_verify_authentication session h cred p :
    Looked webauthn self req session h cred ->
    fnLength (authenticationFn self) < 4 ->
    fnDirect (authenticationFn self) req (cred, resolvedIdentity session h)
      = Done (Some p) ->
    Emitted webauthn self req
      (EVerifyAuthentication
         (authenticationArgs self req (challenge session) (body req)
            (authenticator p)))
| em_refused session h cred p v :
    Looked webauthn self req session h cred ->
    fnLength (authenticationFn self) < 4 ->
    fnDirect (authenticationFn self) req (cred, resolvedIdentity session h)
      = Done (Some p) ->
    verifyAuthenticationResponse webauthn
      (authenticationArgs self req (challenge session) (body req)
         (authenticator p)) = Done v ->
    Js.truthy v = false ->
    Emitted webauthn self req
      (EFail (Js.message "Authenticator verification failed") (Some 400%Z))
| em_authenticated session h cred p v :
    Looked webauthn self req session h cred ->
    fnLength (authenticationFn self) < 4 ->
    fnDirect (authenticationFn self) req (cred, resolvedIdentity session h)
      = Done (Some p) ->
    verifyAuthenticationResponse webauthn
      (authenticationArgs self req (challenge session) (body req)
         (authenticator p)) = Done v ->
    Js.truthy v = true ->
    Emitted webauthn self req (ESuccess (uwaUser p) JUndefined)
| em_verifier_error session h cred p err :
    Looked webauthn self req session h cred ->
    fnLength (authenticationFn self) < 4 ->
    fnDirect (authenticationFn self) req (cred, resolvedIdentity session h)
      = Done (Some p) ->
    verifyAuthenticationResponse webauthn
      (authenticationArgs self req (challenge session) (body req)
         (authenticator p)) = Raised err ->
    Emitted webauthn self req (EError err)
| em_concluded session h cred c e :
    Looked webauthn self req session h cred ->
    4 <= fnLength (authenticationFn self) ->
    In c (fst (fnCallback (authenticationFn self) req
                 (cred, resolvedIdentity session h))) ->
    ConcludedAuthentication webauthn self req (challenge session) (body req) c e ->
    Emitted webauthn self req e
| em_unsupported session type text :
    Ceremony webauthn self req session type ->
    type <> JStr "webauthn.create" ->
    type <> JStr "webauthn.get" ->
    Js.to_string type = Done text ->
    Emitted webauthn self req
      (EFail (Js.message ("Unsupported response type: " ++ text)%string)
             (Some 400%Z)).

(** ** More concrete ceremonies *)

Module Cases.

Import Fixture.

(** A verifier that finds no registration info in the attestation. *)
Definition withoutInfo : Platform :=
  {| decodeClientData := decode;
     verifyRegistrationResponse := fun _ =>
       Done {| verified := false; registrationInfo := None |};
     verifyAuthenticationResponse := fun _ => Done (JBool false);
     timeline := [] |}.

(** A verifier that resolves to [false] on every assertion. *)
Definition refusing : Platform :=
  {| decodeClientData := decode;
     verifyRegistrationResponse := fun _ =>
       Done {| verified := true; registrationInfo := Some info0 |};
     verifyAuthenticationResponse := fun _ => Done (JBool false);
     timeline := [] |}.

(** A verifier that resolves to the object [{ verified: false }] on
    every assertion. *)
Definition unverified : Platform :=
  {| decodeClientData := decode;
     verifyRegistrationResponse := fun _ =>
       Done {| verified := true; registrationInfo := Some info0 |};
     verifyAuthenticationResponse := fun _ =>
       Done (JObj [("verified", JBool false)]);
     timeline := [] |}.

(** base64url of [{"type":{"toString":"x"}}] and of [{"type":5}]. *)
Definition unrenderableClientData : string := "eyJ0eXBlIjp7InRvU3RyaW5nIjoieCJ9fQ".
Definition numberClientData : string := "eyJ0eXBlIjo1fQ".

Definition decodeMore (v : JsVal) : Outcome JsVal :=
  match v with
  | JStr s =>
      if String.eqb s unrenderableClientData
      then Done (JObj [("type", JObj [("toString", JStr "x")])])
      else if String.eqb s numberClientData
      then Done (JObj [("type", JNum "5")])
      else decode v
  | _ => decode v
  end.

(** The accepting verifier on a platform that also decodes these. *)
Definition parsing : Platform :=
  {| decodeClientData := decodeMore;
     verifyRegistrationResponse := verifyRegistrationResponse accepting;
     verifyAuthenticationResponse := verifyAuthenticationResponse accepting;
     timeline := [] |}.

Definition unrenderableReq : Request :=
  ceremony unrenderableClientData JUndefined.
Definition numberReq : Request := ceremony numberClientData JUndefined.

(** An assertion without [userHandle]. *)
Definition noHandleReq : Request := ceremony getClientData JUndefined.

Definition lookupFailed : JsVal :=
  JObj [("name", JStr "Error"); ("message", JStr "User not found")].

Definition notAllowed : JsVal := Js.message "account locked".

(** Callback-style functions: the lookup completes once with [c]. *)
Definition completing (sessionUser : option User)
    (c : Completion UserWithAuthenticator) : Strategy :=
  strategy sessionUser (loginCallback [c]) (registerCallback []).

(** A callback-style lookup that calls [conclude(null, pairing)] and
    goes on to call [conclude(err)]. *)
Definition successThenError : Strategy :=
  strategy None
    (loginCallback [mkCompletion JNull (Some pairing2) JUndefined;
                    mkCompletion dbDown None JUndefined])
    (registerCallback []).

(** The accepting verifier on an event loop where the lookup function
    makes its second completion call once the verification of the
    first has settled. *)
Definition settling : Platform :=
  {| decodeClientData := decode;
     verifyRegistrationResponse := verifyRegistrationResponse accepting;
     verifyAuthenticationResponse := verifyAuthenticationResponse accepting;
     timeline := [Invokes; Settles 0; Invokes; Settles 1] |}.

(** An extractor that finds no session: [req.session] is undefined. *)
Definition noSession : JsVal :=
  Js.TypeError "Cannot read properties of undefined (reading 'webauthn')".

Definition sessionless : Strategy :=
  {| options := {| passReqToCallback := None;
                   extractor := fun _ => Raised noSession;
                   expectedRPID := "example.com";
                   expectedOrigin := None;
                   supportedAlgorithmIDs := None;
                   requireUserVerification := None |};
     authenticationFn := loginDirect (Done (Some pairing2));
     registrationFn := registerDirect (Done (Some u1)) |}.

(** No origin configured: the verifier is to expect the origin of the
    request. *)
Definition unconfigured (sessionUser : option User) : Strategy :=
  {| options := {| passReqToCallback := None;
                   extractor := fun _ =>
                     Done {| challenge := "c1"; user := sessionUser |};
                   expectedRPID := "example.com";
                   expectedOrigin := None;
                   supportedAlgorithmIDs := None;
                   requireUserVerification := None |};
     authenticationFn := loginDirect (Done (Some pairing2));
     registrationFn := registerDirect (Done (Some u1)) |}.

End Cases.

(** ** Counting calls *)

Definition isDeveloperCall (e : Event) : bool :=
  match e with
  | ERegistrationFn _ _ _ | EAuthenticationFn _ _ _ => true
  | _ => false
  end.

Definition isVerifierCall (e : Event) : bool :=
  match e with
  | EVerifyRegistration _ | EVerifyAuthentication _ => true
  | _ => false
  end.

(** A part of a run without event of the kind [p]. *)
Definition NoCall {A} (p : Event -> bool) (m : Run A) : Prop :=
  filter p (fst m) = [].

(** A part of a run with at most one event of the kind [p]. *)
Definition OneCall {A} (p : Event -> bool) (m : Run A) : Prop :=
  List.length (filter p (fst m)) <= 1.

(** ** The registration function of the README

    [async (req, user, registrationInfo, conclude) => { try { const
    newUser = await User.create(user, registrationInfo); if (!newUser)
    { conclude(new Error("Couldn't register user")); } conclude(null,
    newUser); } catch (err) { conclude(err); } }], for a given
    behaviour of [User.create]. *)

Module Readme.

Definition couldNotRegister : JsVal :=
  JObj [("name", JStr "Error"); ("message", JStr "Couldn't register user")].

Definition notAFunction : JsVal := Js.TypeError "conclude is not a function".

Definition register (create : User -> RegistrationInfo -> Outcome (option User))
  : RegistrationFn :=
  {| fnLength := 4;
     (* without [conclude] every path ends in a call of [undefined] *)
     fnDirect := fun _ args =>
       match create (fst args) (snd args) with
       | Pending => Pending
       | _ => Raised notAFunction
       end;
     fnCallback := fun _ args =>
       (match create (fst args) (snd args) with
        | Done (Some newUser) => [mkCompletion JNull (Some newUser) JUndefined]
        | Done None => [mkCompletion couldNotRegister None JUndefined;
                        mkCompletion JNull None JUndefined]
        | Raised err => [mkCompletion err None JUndefined]
        | Pending => []
        end, None) |}.

End Readme.

(** ** Laws of runs *)

Arguments Js.get : simpl never.

Lemma bind_await_Done {A B} (a : A) (f : A -> Run B) :
  bind (await (Done a)) f = f a.
Proof. unfold bind, await; cbn. now destruct (f a). Qed.

Lemma bind_await_Raised {A B} (e : JsVal) (f : A -> Run B) :
  bind (await (Raised e)) f = ([], Raised e).
Proof. reflexivity. Qed.

Lemma bind_await_Pending {A B} (f : A -> Run B) :
  bind (await Pending) f = ([], Pending).
Proof. reflexivity. Qed.

Lemma bind_emit {B} (e : Event) (f : unit -> Run B) :
  bind (emit e) f = (e :: fst (f tt), snd (f tt)).
Proof. reflexivity. Qed.

Lemma strict_eq_str_true (v : JsVal) (s : string) :
  Js.strict_eq_str v s = true <-> v = JStr s.
Proof.
  destruct v; cbn; try (split; [discriminate | intros H; discriminate H]).
  rewrite String.eqb_eq. split; [now intros -> | now intros [= ->]].
Qed.

Lemma strict_eq_str_false (v : JsVal) (s : string) :
  Js.strict_eq_str v s = false <-> v <> JStr s.
Proof.
  rewrite <- strict_eq_str_true. destruct (Js.strict_eq_str v s); split;
    congruence.
Qed.

Lemma truthy_empty (v : JsVal) :
  v = JStr EmptyString -> Js.truthy v = false.
Proof. now intros ->. Qed.

(** Unfolding [authenticate] up to the dispatch on the ceremony type. *)
Ltac classify H :=
  let Hext := fresh "Hext" in
  let Hty := fresh "Hty" in
  let Hresp := fresh "Hresp" in
  let Hcdj := fresh "Hcdj" in
  let Hdec := fresh "Hdec" in
  destruct H as [Hext Hty];
  unfold clientDataTypeOf in Hty;
  match type of Hty with
  | context [Js.get ?b "response"] =>
      destruct (Js.get b "response") as [response | |] eqn:Hresp;
      try discriminate Hty
  end;
  match type of Hty with
  | context [Js.get ?r "clientDataJSON"] =>
      destruct (Js.get r "clientDataJSON") as [clientDataJSON | |] eqn:Hcdj;
      try discriminate Hty
  end;
  match type of Hty with
  | context [decodeClientData ?w ?j] =>
      destruct (decodeClientData w j) as [clientData | |] eqn:Hdec;
      try discriminate Hty
  end;
  unfold authenticate; cbv zeta;
  rewrite Hext, bind_await_Done, Hresp, bind_await_Done, Hcdj, bind_await_Done,
    Hdec, bind_await_Done, Hty, bind_await_Done.

(** ** Asynchronous completions *)

Lemma Permutation_filter' {A} (p : A -> bool) (l l' : list A) :
  Permutation l l' -> Permutation (filter p l) (filter p l').
Proof.
  induction 1 as [| x l l' _ IH | x y l | l l' l'' _ IH1 _ IH2]; cbn.
  - constructor.
  - destruct (p x); [now constructor | exact IH].
  - destruct (p x), (p y); try reflexivity. apply perm_swap.
  - now transitivity (filter p l').
Qed.

Lemma filter_split_Permutation {A B} (f : A -> list B) (p : A -> bool) l :
  Permutation
    (flat_map f (filter p l) ++ flat_map f (filter (fun x => negb (p x)) l))
    (flat_map f l).
Proof.
  induction l as [| x l IH]; [reflexivity |].
  cbn. destruct (p x); cbn.
  - rewrite <- app_assoc. now apply Permutation_app_head.
  - rewrite Permutation_app_comm, <- app_assoc.
    apply Permutation_app_head. now rewrite Permutation_app_comm.
Qed.

Section PlayFacts.

Variable webauthn : Platform.
Variable self : Strategy.
Variable req : Request.
Variable challenge : string.
Variable authentication : JsVal.

(** The events of an invocation before its [await]. *)
Lemma started_cases c :
  started webauthn self req challenge authentication c =
    EConcludeAuthentication c ::
    (if Js.truthy (cErr c) then [EError (cErr c)]
     else match cResult c with
          | None => [EFail (cInfo c) None]
          | Some p =>
              [EVerifyAuthentication
                 (authenticationArgs self req challenge authentication
                    (authenticator p))]
          end).
Proof.
  unfold started, concludeAuthentication, verifyAuthenticator.
  rewrite bind_emit. destruct (Js.truthy (cErr c)); [reflexivity |].
  now destruct (cResult c).
Qed.

(** The events of an invocation after its [await]. *)
Lemma resumed_cases c :
  resumed webauthn self req challenge authentication c =
    if Js.truthy (cErr c) then []
    else match cResult c with
         | None => []
         | Some p =>
             match verifyAuthenticationResponse webauthn
                     (authenticationArgs self req challenge authentication
                        (authenticator p)) with
             | Done v =>
                 [if Js.truthy v
                  then ESuccess (uwaUser p) (cInfo c)
                  else EFail (Js.message "Authenticator verification failed")
                             (Some 400%Z)]
             | Raised e => [ELog e; EError e]
             | Pending => []
             end
         end.
Proof.
  unfold resumed, started, concludeAuthentication,
    verifyAuthenticator. rewrite !bind_emit.
  destruct (Js.truthy (cErr c)); [reflexivity |].
  destruct (cResult c) as [p |]; [| reflexivity].
  destruct (verifyAuthenticationResponse webauthn _) as [v | e |];
    unfold bind, try_catch; cbn; try reflexivity.
  now destruct (Js.truthy v).
Qed.

(** An invocation is its part before the [await] followed by its part
    after it. *)
Lemma started_resumed c :
  fst (concludeAuthentication webauthn self req challenge authentication c) =
    started webauthn self req challenge authentication c ++
    resumed webauthn self req challenge authentication c.
Proof.
  rewrite started_cases, resumed_cases.
  unfold concludeAuthentication, verifyAuthenticator. rewrite bind_emit.
  destruct (Js.truthy (cErr c)); [reflexivity |].
  destruct (cResult c) as [p |]; [| reflexivity].
  destruct (verifyAuthenticationResponse webauthn _) as [v | e |];
    unfold bind, try_catch; cbn; try reflexivity.
  now destruct (Js.truthy v).
Qed.

(** Whatever the timeline, the events are those of the invocations. *)
Lemma play_Permutation turns : forall made todo pending,
  Permutation
    (play webauthn self req challenge authentication turns made todo pending)
    (flat_map snd pending ++
     flat_map
       (fun c => fst (concludeAuthentication webauthn self req challenge
                        authentication c))
       todo).
Proof.
  induction turns as [| [| k] turns IH]; intros made todo pending; cbn [play].
  - rewrite Permutation_app_swap_app. apply Permutation_app_head.
    induction todo as [| c todo IHt]; [reflexivity |].
    cbn [flat_map]. rewrite started_resumed, <- !app_assoc.
    apply Permutation_app_head. rewrite Permutation_app_swap_app.
    now apply Permutation_app_head.
  - destruct todo as [| c todo]; [apply IH |].
    rewrite IH. cbn [flat_map]. rewrite started_resumed.
    rewrite flat_map_app. cbn [flat_map snd]. rewrite app_nil_r.
    rewrite <- !app_assoc. apply Permutation_app_swap_app.
  - rewrite IH. rewrite app_assoc. apply Permutation_app_tail.
    apply (filter_split_Permutation snd (fun q => Nat.eqb (fst q) k)).
Qed.

Lemma play_all turns calls :
  Permutation
    (play webauthn self req challenge authentication turns 0 calls [])
    (flat_map
       (fun c => fst (concludeAuthentication webauthn self req challenge
                        authentication c))
       calls).
Proof. apply (play_Permutation turns 0 calls []). Qed.

(** The invocations begin in the order in which the function makes
    them. *)
Lemma concludes_play turns : forall made todo pending,
  concludes (flat_map snd pending) = [] ->
  concludes (play webauthn self req challenge authentication turns made todo
               pending)
    = map EConcludeAuthentication todo.
Proof.
  assert (Hs : forall c,
    concludes (started webauthn self req challenge authentication c)
      = [EConcludeAuthentication c]).
  { intros c. rewrite started_cases. cbn.
    destruct (Js.truthy (cErr c)); [reflexivity |]. now destruct (cResult c). }
  assert (Hr : forall c,
    concludes (resumed webauthn self req challenge authentication c) = []).
  { intros c. rewrite resumed_cases.
    destruct (Js.truthy (cErr c)); [reflexivity |].
    destruct (cResult c); [| reflexivity].
    destruct (verifyAuthenticationResponse webauthn _) as [v | e |];
      try reflexivity.
    now destruct (Js.truthy v). }
  induction turns as [| [| k] turns IH]; intros made todo pending Hp;
    cbn [play].
  - unfold concludes in *. rewrite !filter_app, Hp. cbn [app].
    assert (Hn : filter isConclude
                   (flat_map (resumed webauthn self req challenge
                                authentication) todo) = []).
    { induction todo as [| c todo IHt]; [reflexivity |].
      cbn [flat_map]. now rewrite filter_app, IHt, Hr. }
    rewrite Hn, app_nil_r. clear Hn.
    induction todo as [| c todo IHt]; [reflexivity |].
    cbn [flat_map map]. now rewrite filter_app, IHt, Hs.
  - destruct todo as [| c todo]; [now apply IH |].
    unfold concludes. rewrite filter_app. fold concludes.
    rewrite Hs. cbn [map app]. f_equal.
    apply IH. rewrite flat_map_app. unfold concludes in *.
    rewrite filter_app, Hp. cbn [flat_map snd]. rewrite app_nil_r.
    apply Hr.
  - assert (Hsub : forall (P : nat * list Event -> bool),
              concludes (flat_map snd (filter P pending)) = []).
    { intros P. clear IH. induction pending as [| q pending IHp];
        [reflexivity |].
      cbn [flat_map] in Hp. unfold concludes in Hp. rewrite filter_app in Hp.
      apply app_eq_nil in Hp as [Hq Hrest].
      cbn [filter]. destruct (P q); [| now apply IHp].
      cbn [flat_map]. unfold concludes. rewrite filter_app, Hq.
      now apply IHp. }
    unfold concludes. rewrite filter_app. fold concludes.
    rewrite Hsub. now apply IH.
Qed.

End PlayFacts.

(** ** The claims *)

(** C9.  A registration ceremony (decoded client-data type
    ['webauthn.create']) whose session carries no user ends in the
    recoverable failure ['User not in session'] with status hint 404,
    whatever the rest of the payload is; that failure is the whole
    trace, so neither the verifier nor the registration function is
    called. *)
Theorem registration_requires_session_user webauthn self req session :
  Ceremony webauthn self req session (JStr "webauthn.create") ->
  user session = None ->
  authenticate webauthn self req =
    ([EFail (Js.message "User not in session") (Some 404%Z)], Done tt) /\
  collaboratorCalls (fst (authenticate webauthn self req)) = [].
Proof.
  intros H Huser.
  assert (E : authenticate webauthn self req =
              ([EFail (Js.message "User not in session") (Some 404%Z)], Done tt)).
  { classify H. cbn. now rewrite Huser. }
  now rewrite E.
Qed.

(** C10.  An assertion (decoded client-data type ['webauthn.get'])
    whose [response.userHandle] is the empty string ends in the
    recoverable failure ['User handle not present'] with status hint
    400 and the lookup function is not called, whether or not the
    session carries a user and whatever that user's id is. *)
Theorem empty_user_handle_not_present webauthn self req session :
  Ceremony webauthn self req session (JStr "webauthn.get") ->
  userHandleOf req = Done (JStr EmptyString) ->
  authenticate webauthn self req =
    ([EFail (Js.message "User handle not present") (Some 400%Z)], Done tt) /\
  lookupCalls (fst (authenticate webauthn self req)) = [].
Proof.
  intros H Hh.
  assert (E : authenticate webauthn self req =
              ([EFail (Js.message "User handle not present") (Some 400%Z)],
               Done tt)).
  { unfold userHandleOf in Hh. classify H. cbn.
    rewrite Hh. cbn. now destruct (user session). }
  now rewrite E.
Qed.

(** The rendering of a value either yields a string or throws. *)
Lemma to_string_settles (v : JsVal) : Js.to_string v <> Pending.
Proof.
  revert v. fix IH 1. intros [| | [|] | printed | s | elements | fs]; cbn;
    try discriminate.
  - revert elements. fix IHl 1. intros [| x rest]; [discriminate |].
    pose proof (IH x) as Hx. pose proof (IHl rest) as IHrest.
    assert (Hx' : match x with
                  | JUndefined | JNull => Done EmptyString
                  | _ => Js.to_string x
                  end <> Pending)
      by (destruct x; try discriminate; exact Hx).
    clear Hx. simpl.
    destruct (match x with
              | JUndefined | JNull => Done EmptyString
              | _ => Js.to_string x
              end) as [sx | e |]; [| discriminate | congruence].
    match type of IHrest with
    | ?j <> Pending => destruct j as [r | e |]
    end; [| | congruence]; destruct rest; discriminate.
  - destruct (Js.lookup "toString" fs); discriminate.
Qed.

(** C8, as the code has it.  When the decoded client-data type is
    neither ['webauthn.create'] nor ['webauthn.get'], the message of the
    failure is built by the concatenation
    ['Unsupported response type: ' + type].  If that concatenation
    yields a string, the run is the single recoverable failure with that
    message and status hint 400, and neither the verifier nor a
    developer function is called; this is so for every type that is a
    string, whose rendering is the string itself, for a missing type,
    rendered as [undefined], and for a number, rendered as it is
    printed.  If the concatenation throws, which an object type with an
    own [toString] property makes it do, the run carries no event at
    all and the promise of [authenticate] rejects with the thrown
    value.  There is no third case. *)
Theorem unsupported_type_fails webauthn self req session type :
  Ceremony webauthn self req session type ->
  type <> JStr "webauthn.create" ->
  type <> JStr "webauthn.get" ->
  let failure text :=
    ([EFail (Js.message ("Unsupported response type: " ++ text)%string)
            (Some 400%Z)], Done tt) in
  (forall text,
     Js.to_string type = Done text ->
     authenticate webauthn self req = failure text /\
     collaboratorCalls (fst (authenticate webauthn self req)) = []) /\
  (forall s, type = JStr s -> authenticate webauthn self req = failure s) /\
  (type = JUndefined -> authenticate webauthn self req = failure "undefined") /\
  (forall printed,
     type = JNum printed -> authenticate webauthn self req = failure printed) /\
  (forall e,
     Js.to_string type = Raised e ->
     authenticate webauthn self req = ([], Raised e)) /\
  (forall fields value,
     type = JObj fields -> Js.lookup "toString" fields = Some value ->
     exists e, authenticate webauthn self req = ([], Raised e)) /\
  Js.to_string type <> Pending.
Proof.
  intros H Hc Hg failure. subst failure.
  apply strict_eq_str_false in Hc, Hg.
  assert (E : forall text, Js.to_string type = Done text ->
    authenticate webauthn self req =
    ([EFail (Js.message ("Unsupported response type: " ++ text)%string)
            (Some 400%Z)], Done tt)).
  { intros text Ht. classify H. now rewrite Hc, Hg, Ht, bind_await_Done. }
  assert (R : forall e, Js.to_string type = Raised e ->
    authenticate webauthn self req = ([], Raised e)).
  { intros e Ht. classify H. now rewrite Hc, Hg, Ht. }
  repeat split.
  - now apply E.
  - rewrite (E text H0). reflexivity.
  - intros s ->. now apply E.
  - intros ->. now apply E.
  - intros printed ->. now apply E.
  - exact R.
  - intros fields value -> Hl. eexists. apply R. cbn. now rewrite Hl.
  - apply to_string_settles.
Qed.

(** C6, as the code has it.  When the session is extracted and the
    client data cannot be read or decoded (reading [body.response],
    [clientDataJSON] or [type], or the decoding itself, throws [e]),
    [authenticate] emits nothing at all: the promise it returns rejects
    with [e]. *)
Theorem undecodable_payload_rejects webauthn self req session e :
  extractor (options self) req = Done session ->
  clientDataTypeOf webauthn req = Raised e ->
  authenticate webauthn self req = ([], Raised e).
Proof.
  intros Hext Hty. unfold clientDataTypeOf in Hty.
  unfold authenticate; cbv zeta. rewrite Hext, bind_await_Done.
  destruct (Js.get (body req) "response") as [response | |];
    try discriminate Hty;
    [rewrite bind_await_Done | now injection Hty as ->].
  destruct (Js.get response "clientDataJSON") as [clientDataJSON | |];
    try discriminate Hty;
    [rewrite bind_await_Done | now injection Hty as ->].
  destruct (decodeClientData webauthn clientDataJSON) as [clientData | |];
    try discriminate Hty;
    [rewrite bind_await_Done | now injection Hty as ->].
  now rewrite Hty.
Qed.

(** Unfolding [authenticate] up to the dispatch on the arity of the
    lookup function. *)
Ltac assertion H :=
  let Hc := fresh "Hc" in
  let Hh := fresh "Hh" in
  let Ht := fresh "Ht" in
  let Hu := fresh "Hu" in
  destruct H as (Hc & Hh & Ht & Hu);
  unfold userHandleOf in Hh;
  classify Hc;
  change (Js.strict_eq_str (JStr "webauthn.get") "webauthn.create") with false;
  change (Js.strict_eq_str (JStr "webauthn.get") "webauthn.get") with true;
  cbv iota;
  rewrite !bind_await_Done, Hh, bind_await_Done, Ht;
  match goal with
  | |- context [match user ?s with Some _ => _ | None => false end] =>
      replace (match user s with
               | Some user0 => true && negb (Js.strict_eq_str _ (id user0))
               | None => false
               end) with false
        by (destruct (user s) as [u0 |] eqn:E; [| reflexivity];
            rewrite (Hu u0 eq_refl); cbn; now rewrite String.eqb_refl)
  end;
  cbv iota; change (negb true) with false; cbv iota.

(** C3, as the code has it.  When the session carries a user and the
    assertion carries a non-empty (truthy) [userHandle] different from
    [user.id], the run is the single recoverable failure
    ['User handle does not match session'] with status hint 400, and the
    lookup function is not called. *)
Theorem user_handle_mismatch_fails webauthn self req session u h :
  Ceremony webauthn self req session (JStr "webauthn.get") ->
  user session = Some u ->
  userHandleOf req = Done h ->
  Js.truthy h = true ->
  h <> JStr (id u) ->
  authenticate webauthn self req =
    ([EFail (Js.message "User handle does not match session") (Some 400%Z)],
     Done tt) /\
  lookupCalls (fst (authenticate webauthn self req)) = [].
Proof.
  intros H Hu Hh Ht Hne. apply strict_eq_str_false in Hne.
  assert (E : authenticate webauthn self req =
    ([EFail (Js.message "User handle does not match session") (Some 400%Z)],
     Done tt)).
  { unfold userHandleOf in Hh. classify H.
    change (Js.strict_eq_str (JStr "webauthn.get") "webauthn.create") with false.
    change (Js.strict_eq_str (JStr "webauthn.get") "webauthn.get") with true.
    cbv iota. now rewrite !bind_await_Done, Hh, bind_await_Done, Hu, Ht, Hne. }
  now rewrite E.
Qed.

(** C7, on the code.  A promise-style lookup (arity below 4) that
    resolves with no pairing ends the run in a recoverable failure with
    status hint 400; the message the code gives it is spelled
    ['Invelid credential']. *)
Theorem lookup_without_pairing_message webauthn self req session h cred :
  Assertion webauthn self req session h ->
  fnLength (authenticationFn self) < 4 ->
  Js.get (body req) "id" = Done cred ->
  fnDirect (authenticationFn self) req (cred, resolvedIdentity session h)
    = Done None ->
  authenticate webauthn self req =
    ([EAuthenticationFn cred (resolvedIdentity session h) false;
      EFail (Js.message "Invelid credential") (Some 400%Z)], Done tt) /\
  Js.message "Invelid credential" <> Js.message "Invalid credential".
Proof.
  intros H Hlen Hid Hfn. split; [| discriminate].
  apply Nat.ltb_lt in Hlen. unfold resolvedIdentity in *.
  assertion H. rewrite Hlen, Hid, bind_await_Done, bind_emit, Hfn.
  reflexivity.
Qed.

(** The completion callback of the authentication path, when the
    verifier throws: the thrown value is written to the console and
    then reported as the fatal error. *)
Lemma concludeAuthentication_verifier_throws webauthn self req challenge
    authentication c p e :
  Js.truthy (cErr c) = false ->
  cResult c = Some p ->
  verifyAuthenticationResponse webauthn
    (authenticationArgs self req challenge authentication (authenticator p))
    = Raised e ->
  concludeAuthentication webauthn self req challenge authentication c =
    ([EConcludeAuthentication c;
      EVerifyAuthentication
        (authenticationArgs self req challenge authentication (authenticator p));
      ELog e; EError e], Done tt).
Proof.
  intros He Hr Hv. unfold concludeAuthentication, verifyAuthenticator.
  rewrite bind_emit, He, Hr, bind_emit, Hv. reflexivity.
Qed.

(** C4, on the code.  In the promise-style lookup path, with a
    resolved pairing and a verifier that throws [e], the run ends in the
    fatal error signal carrying [e], and nothing is written to the
    console: only the callback-style path logs the thrown value. *)
Theorem promise_style_verifier_throw_not_logged webauthn self req session h
    cred p e :
  Assertion webauthn self req session h ->
  fnLength (authenticationFn self) < 4 ->
  Js.get (body req) "id" = Done cred ->
  fnDirect (authenticationFn self) req (cred, resolvedIdentity session h)
    = Done (Some p) ->
  verifyAuthenticationResponse webauthn
    (authenticationArgs self req (challenge session) (body req) (authenticator p))
    = Raised e ->
  authenticate webauthn self req =
    ([EAuthenticationFn cred (resolvedIdentity session h) false;
      EVerifyAuthentication
        (authenticationArgs self req (challenge session) (body req)
           (authenticator p));
      EError e], Done tt) /\
  logged (fst (authenticate webauthn self req)) = [].
Proof.
  intros H Hlen Hid Hfn Hv.
  assert (E : authenticate webauthn self req =
    ([EAuthenticationFn cred (resolvedIdentity session h) false;
      EVerifyAuthentication
        (authenticationArgs self req (challenge session) (body req)
           (authenticator p));
      EError e], Done tt)).
  { apply Nat.ltb_lt in Hlen. unfold resolvedIdentity in *.
    assertion H. rewrite Hlen, Hid, bind_await_Done, bind_emit, Hfn.
    unfold verifyAuthenticator. rewrite bind_await_Done, bind_emit, Hv.
    reflexivity. }
  now rewrite E.
Qed.

(** Every invocation of the registration completion callback emits the
    one signal the contract names. *)
Lemma concludeRegistration_run (c : Completion User) :
  concludeRegistration c =
    ([EConcludeRegistration c; completionSignal (fun u => u) c], Done tt).
Proof.
  unfold concludeRegistration, completionSignal. rewrite bind_emit.
  destruct (Js.truthy (cErr c)); [reflexivity |].
  now destruct (cResult c).
Qed.

Lemma each_detach_Done {A} (f : A -> Run unit) (l : list A) :
  snd (each (fun x => detach (f x)) l) = Done tt.
Proof. induction l as [| x l IH]; [reflexivity | exact IH]. Qed.

Lemma each_detach_trace {A} (f : A -> Run unit) (l : list A) :
  fst (each (fun x => detach (f x)) l) = flat_map (fun x => fst (f x)) l.
Proof.
  induction l as [| x l IH]; [reflexivity |].
  cbn [each flat_map]. unfold bind, detach at 1. cbn [fst snd].
  now rewrite IH.
Qed.

Lemma each_concludeRegistration (cs : list (Completion User)) :
  fst (each (fun c => detach (concludeRegistration c)) cs) =
    flat_map (fun c => [EConcludeRegistration c; completionSignal (fun u => u) c])
             cs.
Proof.
  rewrite each_detach_trace. apply flat_map_ext. intros c.
  now rewrite concludeRegistration_run.
Qed.

(** C1.  On the registration path, once the verifier has resolved with
    registration info, the registration function is dispatched on its
    declared parameter count.  Below 4 it is called without callback
    and awaited: no user gives the failure ['User not found'] with
    status hint 404, a throw or rejection gives the fatal error with the
    thrown value, a user gives success with exactly that user.  From 4
    on it is called with the completion callback, and every invocation
    of that callback emits the signal of the contract: the error for a
    truthy [err], else a failure carrying [info] for a missing user,
    else success with [user] and [info]. *)
Theorem registration_dual_invocation webauthn self req session u rr info :
  Ceremony webauthn self req session (JStr "webauthn.create") ->
  user session = Some u ->
  verifyRegistrationResponse webauthn
    (registrationArgs self req (challenge session) (body req)) = Done rr ->
  registrationInfo rr = Some info ->
  let fn := registrationFn self in
  let verify :=
    EVerifyRegistration (registrationArgs self req (challenge session) (body req)) in
  (fnLength fn < 4 ->
   (fnDirect fn req (u, info) = Done None ->
    authenticate webauthn self req =
      ([verify; ERegistrationFn u info false;
        EFail (Js.message "User not found") (Some 404%Z)], Done tt)) /\
   (forall err, fnDirect fn req (u, info) = Raised err ->
    authenticate webauthn self req =
      ([verify; ERegistrationFn u info false; EError err], Done tt)) /\
   (forall newUser, fnDirect fn req (u, info) = Done (Some newUser) ->
    authenticate webauthn self req =
      ([verify; ERegistrationFn u info false; ESuccess newUser JUndefined],
       Done tt))) /\
  (4 <= fnLength fn ->
   fst (authenticate webauthn self req) =
     verify :: ERegistrationFn u info true ::
     flat_map (fun c => [EConcludeRegistration c;
                         completionSignal (fun user => user) c])
              (fst (fnCallback fn req (u, info)))).
Proof.
  intros H Hu Hv Hi fn verify. subst fn verify.
  classify H.
  change (Js.strict_eq_str (JStr "webauthn.create") "webauthn.create") with true.
  cbv iota. rewrite Hu, bind_emit, Hv, bind_await_Done, Hi.
  split.
  - intros Hlen. apply Nat.ltb_lt in Hlen. rewrite Hlen, bind_emit.
    repeat split.
    + intros ->. reflexivity.
    + intros err ->. reflexivity.
    + intros newUser ->. reflexivity.
  - intros Hlen. apply Nat.ltb_ge in Hlen. rewrite Hlen, bind_emit.
    destruct (fnCallback (registrationFn self) req (u, info)) as [calls thrown].
    cbn [fst snd]. unfold bind. rewrite each_detach_Done. cbn [fst snd].
    rewrite each_concludeRegistration.
    destruct thrown; cbn [rethrow fst snd ret]; now rewrite ?app_nil_r.
Qed.

(** ** Counting terminal signals *)

Lemma signals_app t1 t2 : signals (t1 ++ t2) = signals t1 ++ signals t2.
Proof. apply filter_app. Qed.

Lemma concludes_app t1 t2 : concludes (t1 ++ t2) = concludes t1 ++ concludes t2.
Proof. apply filter_app. Qed.

Lemma Silent_await {A} (o : Outcome A) : Silent (await o).
Proof. now split. Qed.

Lemma Silent_emit (e : Event) :
  isSignal e = false -> isConclude e = false -> Silent (emit e).
Proof. intros H1 H2. split; cbn; now rewrite ?H1, ?H2. Qed.

Lemma Silent_verifyAuthenticator webauthn self req challenge authentication a :
  Silent (verifyAuthenticator webauthn self req challenge authentication a).
Proof. now split. Qed.

Lemma Strict_bind {A} (m : Run A) (f : A -> Run unit) :
  Silent m -> (forall a, Strict (f a)) -> Strict (bind m f).
Proof.
  intros [Hs Hc] Hf. unfold Strict, bind.
  destruct (snd m) as [a | e |]; cbn [fst snd]; [| easy | easy].
  destruct (Hf a) as [Hc' Hs'].
  now rewrite signals_app, concludes_app, Hs, Hc, Hc'.
Qed.

Lemma Strict_signal (e : Event) : isSignal e = true -> Strict (emit e).
Proof.
  intros H. split; cbn; [| now rewrite H].
  destruct e; try discriminate H; reflexivity.
Qed.

Lemma Strict_try_error (m : Run unit) :
  Strict m -> Strict (try_catch m (fun err => error err)).
Proof.
  intros [Hc Hs]. unfold Strict, try_catch.
  destruct (snd m) as [a | e |] eqn:E; rewrite ?E; [easy | | easy].
  cbn [fst snd error emit]. rewrite signals_app, concludes_app, Hs, Hc.
  now split.
Qed.

Lemma Strict_Bounded (r : Run unit) : Strict r -> Bounded r.
Proof.
  intros [Hc Hs]. unfold Bounded. rewrite Hc.
  destruct (snd r); rewrite ?Hs; cbn; lia.
Qed.

Lemma Bounded_bind {A} (m : Run A) (f : A -> Run unit) :
  Silent m -> (forall a, Bounded (f a)) -> Bounded (bind m f).
Proof.
  intros [Hs Hc] Hf. unfold Bounded, bind.
  destruct (snd m) as [a | e |]; cbn [fst snd]; rewrite ?Hs, ?Hc; cbn; try lia.
  rewrite signals_app, concludes_app, Hs, Hc. apply Hf.
Qed.

Lemma flat_map_filter_le {A} (p q : Event -> bool) (g : A -> list Event) l :
  (forall x, List.length (filter p (g x)) <= List.length (filter q (g x))) ->
  List.length (filter p (flat_map g l)) <= List.length (filter q (flat_map g l)).
Proof.
  intros H. induction l as [| x l IH]; [reflexivity |].
  cbn [flat_map]. rewrite !filter_app, !length_app. specialize (H x). lia.
Qed.

(** The callback-style dispatch: the developer function is called and
    whatever is signalled afterwards comes from the completions. *)
Lemma Bounded_callbacks {A} (call : Event) (g : A -> Run unit)
    (behaviour : list A * option JsVal) :
  isSignal call = false -> isConclude call = false ->
  (forall c, List.length (signals (fst (g c)))
             <= List.length (concludes (fst (g c)))) ->
  Bounded (emit call ;;;
           let (calls, thrown) := behaviour in
           each (fun c => detach (g c)) calls ;;; rethrow thrown).
Proof.
  intros H1 H2 Hg. destruct behaviour as [calls thrown].
  unfold Bounded. rewrite bind_emit. unfold signals, concludes.
  cbn [fst filter]. fold signals concludes. rewrite H1, H2.
  unfold bind. rewrite each_detach_Done. cbn [fst snd].
  rewrite signals_app, concludes_app, !length_app, each_detach_trace.
  pose proof (flat_map_filter_le isSignal isConclude (fun c => fst (g c)) calls Hg)
    as Hle.
  unfold signals, concludes.
  destruct thrown; cbn [rethrow ret fst filter List.length]; lia.
Qed.

Lemma filter_flat_map {A B} (p : B -> bool) (g : A -> list B) (l : list A) :
  filter p (flat_map g l) = flat_map (fun x => filter p (g x)) l.
Proof.
  induction l as [| x l IH]; [reflexivity |].
  cbn [flat_map]. now rewrite filter_app, IH.
Qed.

Lemma completionSignal_isSignal {R} (userOf : R -> User) (c : Completion R) :
  isSignal (completionSignal userOf c) = true.
Proof.
  unfold completionSignal. destruct (Js.truthy (cErr c)); [reflexivity |].
  now destruct (cResult c).
Qed.

Lemma concludeRegistration_counts (c : Completion User) :
  List.length (signals (fst (concludeRegistration c))) = 1 /\
  concludes (fst (concludeRegistration c)) = [EConcludeRegistration c].
Proof.
  rewrite concludeRegistration_run.
  cbn [fst signals concludes filter isSignal isConclude].
  rewrite completionSignal_isSignal.
  split; [reflexivity |].
  unfold completionSignal. destruct (Js.truthy (cErr c)); [reflexivity |].
  now destruct (cResult c).
Qed.

Lemma concludeAuthentication_counts webauthn self req challenge authentication c :
  List.length (signals (fst (concludeAuthentication webauthn self req challenge
                               authentication c))) <= 1 /\
  concludes (fst (concludeAuthentication webauthn self req challenge
                    authentication c)) = [EConcludeAuthentication c].
Proof.
  unfold concludeAuthentication, verifyAuthenticator. rewrite bind_emit.
  destruct (Js.truthy (cErr c)); [split; cbn; [lia | reflexivity] |].
  destruct (cResult c) as [p |]; [| split; cbn; [lia | reflexivity]].
  destruct (verifyAuthenticationResponse webauthn _) as [v | e |].
  - destruct (Js.truthy v) eqn:E; unfold bind, try_catch; cbn; rewrite E;
      split; cbn; try lia; reflexivity.
  - split; cbn; [lia | reflexivity].
  - split; cbn; [lia | reflexivity].
Qed.

(** The callback-style dispatch of the lookup path: whatever the
    timeline, the signals are those of the invocations. *)
Lemma Bounded_play (call : Event) webauthn self req challenge authentication
    (behaviour : list (Completion UserWithAuthenticator) * option JsVal) :
  isSignal call = false -> isConclude call = false ->
  Bounded (emit call ;;;
           let (calls, thrown) := behaviour in
           happen (play webauthn self req challenge authentication
                     (timeline webauthn) 0 calls []) ;;;
           rethrow thrown).
Proof.
  intros H1 H2. destruct behaviour as [calls thrown].
  unfold Bounded. rewrite bind_emit. unfold signals, concludes.
  cbn [fst filter]. rewrite H1, H2.
  unfold bind, happen. cbn [fst snd].
  rewrite !filter_app, !length_app.
  pose proof (play_all webauthn self req challenge authentication
                (timeline webauthn) calls) as HP.
  rewrite (Permutation_length (Permutation_filter' isSignal _ _ HP)).
  rewrite (Permutation_length (Permutation_filter' isConclude _ _ HP)).
  assert (Hg : forall c,
    List.length (filter isSignal
                   (fst (concludeAuthentication webauthn self req challenge
                           authentication c)))
    <= List.length (filter isConclude
                      (fst (concludeAuthentication webauthn self req challenge
                              authentication c)))).
  { intros c.
    destruct (concludeAuthentication_counts webauthn self req challenge
                authentication c) as [Hs Hc].
    unfold signals, concludes in *. rewrite Hc. exact Hs. }
  pose proof (flat_map_filter_le isSignal isConclude _ calls Hg) as Hle.
  destruct thrown; cbn [rethrow ret fst filter List.length]; lia.
Qed.

Ltac strict :=
  repeat first
    [ apply Strict_signal; reflexivity
    | apply Strict_try_error
    | apply Strict_bind;
      [ first [ apply Silent_await
              | apply Silent_verifyAuthenticator
              | apply Silent_emit; reflexivity ]
      | intros ? ]
    | match goal with
      | |- Strict (match ?x with Some _ => _ | None => _ end) => destruct x
      | |- Strict (if ?b then _ else _) => destruct b
      end ].

Lemma Disciplined_bind {A} self (m : Run A) (f : A -> Run unit) :
  Silent m -> (forall a, Disciplined self (f a)) -> Disciplined self (bind m f).
Proof.
  intros Hm Hf. split.
  - apply Bounded_bind; [exact Hm |]. intros a. apply Hf.
  - intros PS. apply Strict_bind; [exact Hm |]. intros a. now apply Hf.
Qed.

Lemma Disciplined_Strict self r : Strict r -> Disciplined self r.
Proof. intros H. split; [now apply Strict_Bounded | easy]. Qed.

Lemma authenticate_Disciplined webauthn self req :
  Disciplined self (authenticate webauthn self req).
Proof.
  unfold authenticate; cbv zeta.
  apply Disciplined_bind; [apply Silent_await | intros session].
  apply Disciplined_bind; [apply Silent_await | intros response].
  apply Disciplined_bind; [apply Silent_await | intros clientDataJSON].
  apply Disciplined_bind; [apply Silent_await | intros clientData].
  apply Disciplined_bind; [apply Silent_await | intros type].
  destruct (Js.strict_eq_str type "webauthn.create").
  - destruct (user session) as [u |]; [| apply Disciplined_Strict; strict].
    apply Disciplined_bind; [apply Silent_emit; reflexivity | intros _].
    apply Disciplined_bind; [apply Silent_await | intros rr].
    destruct (registrationInfo rr) as [info |];
      [| apply Disciplined_Strict; strict].
    destruct (fnLength (registrationFn self) <? 4)%nat eqn:E.
    + apply Disciplined_Strict; strict.
    + split.
      * apply Bounded_callbacks; try reflexivity.
        intros c. destruct (concludeRegistration_counts c) as [-> ->].
        reflexivity.
      * intros [PS _]. apply Nat.ltb_lt in PS. congruence.
  - destruct (Js.strict_eq_str type "webauthn.get").
    + apply Disciplined_bind; [apply Silent_await | intros response'].
      apply Disciplined_bind; [apply Silent_await | intros userHandle].
      destruct (match user session with Some _ => _ | None => _ end);
        [apply Disciplined_Strict; strict |].
      destruct (negb (Js.truthy userHandle));
        [apply Disciplined_Strict; strict |].
      destruct (fnLength (authenticationFn self) <? 4)%nat eqn:E.
      * apply Disciplined_Strict; strict.
      * apply Disciplined_bind; [apply Silent_await | intros cred].
        split.
        -- apply Bounded_play; reflexivity.
        -- intros [_ PS]. apply Nat.ltb_lt in PS. congruence.
    + apply Disciplined_Strict; strict.
Qed.


(** ** Accounting for recoverable failures *)

Lemma relayedFailure_app_l t1 t2 info status :
  relayedFailure t1 info status -> relayedFailure (t1 ++ t2) info status.
Proof.
  intros [Hs [(c & Hin & H) | (c & Hin & H)]]; (split; [exact Hs |]);
    [left | right]; exists c; (split; [| exact H]); apply in_or_app; now left.
Qed.

Lemma relayedFailure_app_r t1 t2 info status :
  relayedFailure t2 info status -> relayedFailure (t1 ++ t2) info status.
Proof.
  intros [Hs [(c & Hin & H) | (c & Hin & H)]]; (split; [exact Hs |]);
    [left | right]; exists c; (split; [| exact H]); apply in_or_app; now right.
Qed.

Lemma accounted_nil : failuresAccounted [].
Proof. intros info status []. Qed.

Lemma accounted_app t1 t2 :
  failuresAccounted t1 -> failuresAccounted t2 -> failuresAccounted (t1 ++ t2).
Proof.
  intros H1 H2 info status Hin. apply in_app_or in Hin as [Hin | Hin].
  - destruct (H1 _ _ Hin) as [Hc | Hr]; [now left | right].
    now apply relayedFailure_app_l.
  - destruct (H2 _ _ Hin) as [Hc | Hr]; [now left | right].
    now apply relayedFailure_app_r.
Qed.

Lemma accounted_bind {A B} (m : Run A) (f : A -> Run B) :
  failuresAccounted (fst m) ->
  (forall a, failuresAccounted (fst (f a))) ->
  failuresAccounted (fst (bind m f)).
Proof.
  intros Hm Hf. unfold bind.
  destruct (snd m) as [a | e |]; cbn [fst]; [| exact Hm | exact Hm].
  apply accounted_app; [exact Hm | apply Hf].
Qed.

Lemma accounted_try_catch {A} (m : Run A) (h : JsVal -> Run A) :
  failuresAccounted (fst m) ->
  (forall e, failuresAccounted (fst (h e))) ->
  failuresAccounted (fst (try_catch m h)).
Proof.
  intros Hm Hh. unfold try_catch.
  destruct (snd m) as [a | e |]; cbn [fst]; [exact Hm | | exact Hm].
  apply accounted_app; [exact Hm | apply Hh].
Qed.

Lemma accounted_await {A} (o : Outcome A) : failuresAccounted (fst (await o)).
Proof. apply accounted_nil. Qed.

Lemma accounted_ret {A} (a : A) : failuresAccounted (fst (ret a)).
Proof. apply accounted_nil. Qed.

Lemma accounted_rethrow (e : option JsVal) : failuresAccounted (fst (rethrow e)).
Proof. destruct e; apply accounted_nil. Qed.

Lemma accounted_emit (e : Event) :
  notFail e = true -> failuresAccounted (fst (emit e)).
Proof.
  intros H info status [E | []]. subst e. discriminate H.
Qed.

Lemma accounted_fail (m : string) (status : Z) :
  (status = 400 \/ status = 404 \/ status = 500)%Z ->
  failuresAccounted (fst (fail (Js.message m) (Some status))).
Proof.
  intros H info st [[= <- <-] | []]. left. split; [now exists m |].
  destruct H as [-> | [-> | ->]]; auto.
Qed.

Lemma accounted_each_detach {A} (g : A -> Run unit) (l : list A) :
  (forall x, failuresAccounted (fst (g x))) ->
  failuresAccounted (fst (each (fun x => detach (g x)) l)).
Proof.
  intros Hg. rewrite each_detach_trace.
  induction l as [| x l IH]; [apply accounted_nil |].
  cbn [flat_map]. now apply accounted_app.
Qed.

Lemma accounted_concludeRegistration (c : Completion User) :
  failuresAccounted (fst (concludeRegistration c)).
Proof.
  rewrite concludeRegistration_run. unfold completionSignal. cbn [fst].
  destruct (Js.truthy (cErr c)) eqn:He.
  - intros info status [H | [H | []]]; discriminate H.
  - destruct (cResult c) as [u |] eqn:Hr.
    + intros info status [H | [H | []]]; discriminate H.
    + intros info status [H | [[= <- <-] | []]]; [discriminate H |].
      right. split; [reflexivity |]. left. exists c. cbn. auto.
Qed.

Ltac accounted_by leaf :=
  repeat first
    [ leaf
    | apply accounted_await
    | apply accounted_ret
    | apply accounted_rethrow
    | apply accounted_fail; lia
    | apply accounted_emit; reflexivity
    | apply accounted_concludeRegistration
    | apply accounted_bind; [| intros ?]
    | apply accounted_try_catch; [| intros ?]
    | apply accounted_each_detach; intros ?
    | match goal with
      | |- failuresAccounted (fst (match ?x with Some _ => _ | None => _ end)) =>
          destruct x
      | |- failuresAccounted (fst (if ?b then _ else _)) => destruct b
      | |- failuresAccounted (fst (let (_, _) := ?x in _)) => destruct x
      end ].

Ltac accounted := accounted_by fail.

Lemma accounted_concludeAuthentication webauthn self req challenge
    authentication (c : Completion UserWithAuthenticator) :
  failuresAccounted
    (fst (concludeAuthentication webauthn self req challenge authentication c)).
Proof.
  unfold concludeAuthentication. rewrite bind_emit. cbn [fst].
  change (failuresAccounted
            ([EConcludeAuthentication c] ++
             fst (if Js.truthy (cErr c) then error (cErr c)
                  else match cResult c with
                       | None => fail (cInfo c) None
                       | Some p =>
                           goOn <- try_catch
                             (v <- verifyAuthenticator webauthn self req challenge
                                     authentication (authenticator p) ;;
                              if negb (Js.truthy v)
                              then fail (Js.message "Authenticator verification failed")
                                        (Some 400%Z) ;;; ret false
                              else ret true)
                             (fun err => emit (ELog err) ;;; error err ;;; ret false) ;;
                           if (goOn : bool)
                           then success (uwaUser p) (cInfo c)
                           else ret tt
                       end))).
  destruct (Js.truthy (cErr c)) eqn:He.
  - apply accounted_app; [| accounted].
    intros info status [H | []]; discriminate H.
  - destruct (cResult c) as [p |] eqn:Hr.
    + apply accounted_app; [intros info status [H | []]; discriminate H |].
      unfold verifyAuthenticator. accounted.
    + intros info status [H | [[= <- <-] | []]]; [discriminate H |].
      right. split; [reflexivity |]. right. exists c. cbn. auto.
Qed.

Lemma relayedFailure_Permutation t t' info status :
  Permutation t t' ->
  relayedFailure t info status -> relayedFailure t' info status.
Proof.
  intros HP [Hs [(c & Hin & H) | (c & Hin & H)]]; (split; [exact Hs |]);
    [left | right]; exists c; (split; [| exact H]);
    now apply (Permutation_in _ HP).
Qed.

Lemma accounted_Permutation t t' :
  Permutation t t' -> failuresAccounted t -> failuresAccounted t'.
Proof.
  intros HP H info status Hin.
  apply (Permutation_in _ (Permutation_sym HP)) in Hin.
  destruct (H _ _ Hin) as [Hc | Hr]; [now left | right].
  now apply (relayedFailure_Permutation t).
Qed.

Lemma accounted_play webauthn self req challenge authentication calls :
  failuresAccounted
    (fst (happen (play webauthn self req challenge authentication
                    (timeline webauthn) 0 calls []))).
Proof.
  cbn [fst happen].
  apply (accounted_Permutation _ _
           (Permutation_sym (play_all webauthn self req challenge authentication
                               (timeline webauthn) calls))).
  induction calls as [| c calls IH]; [apply accounted_nil |].
  cbn [flat_map]. apply accounted_app; [| exact IH].
  apply accounted_concludeAuthentication.
Qed.

Lemma authenticate_accounted webauthn self req :
  failuresAccounted (fst (authenticate webauthn self req)).
Proof.
  unfold authenticate, verifyAuthenticator; cbv zeta.
  accounted_by ltac:(first [ apply accounted_concludeAuthentication
                           | apply accounted_play ]).
Qed.

Lemma no_conclude_no_relay t info status :
  concludes t = [] -> ~ relayedFailure t info status.
Proof.
  intros Hc [_ [(c & Hin & _) | (c & Hin & _)]].
  - assert (Hf : In (EConcludeRegistration c) (concludes t))
      by (apply filter_In; now split).
    rewrite Hc in Hf. destruct Hf.
  - assert (Hf : In (EConcludeAuthentication c) (concludes t))
      by (apply filter_In; now split).
    rewrite Hc in Hf. destruct Hf.
Qed.


(** ** Which events a run carries *)

Section AllEvents.

Variable E : Event -> Prop.

Lemma all_nil : allEvents E [].
Proof. intros e []. Qed.

Lemma all_app t1 t2 : allEvents E t1 -> allEvents E t2 -> allEvents E (t1 ++ t2).
Proof.
  intros H1 H2 e Hin. apply in_app_or in Hin as [Hin | Hin]; auto.
Qed.

Lemma all_emit e : E e -> allEvents E (fst (emit e)).
Proof. intros H e' [<- | []]. exact H. Qed.

Lemma all_await {A} (o : Outcome A) : allEvents E (fst (await o)).
Proof. apply all_nil. Qed.

Lemma all_rethrow (e : option JsVal) : allEvents E (fst (rethrow e)).
Proof. destruct e; apply all_nil. Qed.

(** The continuation only matters for the value the first part
    returned. *)
Lemma all_bind {A B} (m : Run A) (f : A -> Run B) :
  allEvents E (fst m) ->
  (forall a, snd m = Done a -> allEvents E (fst (f a))) ->
  allEvents E (fst (bind m f)).
Proof.
  intros Hm Hf. unfold bind.
  destruct (snd m) as [a | e |]; cbn [fst]; [| exact Hm | exact Hm].
  apply all_app; [exact Hm | now apply Hf].
Qed.

Lemma all_try_catch {A} (m : Run A) (h : JsVal -> Run A) :
  allEvents E (fst m) ->
  (forall e, snd m = Raised e -> allEvents E (fst (h e))) ->
  allEvents E (fst (try_catch m h)).
Proof.
  intros Hm Hh. unfold try_catch.
  destruct (snd m) as [a | e |]; cbn [fst]; [exact Hm | | exact Hm].
  apply all_app; [exact Hm | now apply Hh].
Qed.

Lemma all_each_detach {A} (g : A -> Run unit) (l : list A) :
  (forall x, In x l -> allEvents E (fst (g x))) ->
  allEvents E (fst (each (fun x => detach (g x)) l)).
Proof.
  intros Hg. rewrite each_detach_trace.
  induction l as [| x l IH]; [apply all_nil |].
  cbn [flat_map]. apply all_app; [apply Hg; now left |].
  apply IH. intros y Hy. apply Hg. now right.
Qed.

Lemma all_Permutation t t' :
  Permutation t t' -> allEvents E t -> allEvents E t'.
Proof.
  intros HP H e Hin. apply H. now apply (Permutation_in _ (Permutation_sym HP)).
Qed.

Lemma all_flat_map {A} (g : A -> list Event) (l : list A) :
  (forall x, In x l -> allEvents E (g x)) -> allEvents E (flat_map g l).
Proof.
  intros Hg e Hin. apply in_flat_map in Hin as (x & Hx & He).
  now apply (Hg x).
Qed.

End AllEvents.

(** Listing the events of an explicit trace. *)
Ltac enumerate :=
  unfold allEvents; cbn;
  let e := fresh "e" in
  let H := fresh "H" in
  intros e H;
  repeat (destruct H as [<- | H]);
  try (destruct H).

Lemma concludeAuthentication_emits webauthn self req challenge authentication c :
  allEvents (ConcludedAuthentication webauthn self req challenge authentication c)
    (fst (concludeAuthentication webauthn self req challenge authentication c)).
Proof.
  unfold concludeAuthentication, verifyAuthenticator. rewrite bind_emit.
  destruct (Js.truthy (cErr c)) eqn:He.
  { enumerate; solve [econstructor; eassumption]. }
  destruct (cResult c) as [p |] eqn:Hr.
  2: { enumerate; solve [econstructor; eassumption]. }
  destruct (verifyAuthenticationResponse webauthn
              (authenticationArgs self req challenge authentication
                 (authenticator p))) as [v | err |] eqn:Hv.
  - destruct (Js.truthy v) eqn:Tv; unfold bind, try_catch; cbn; rewrite Tv;
      enumerate; solve [econstructor; eassumption].
  - unfold bind, try_catch; enumerate; solve [econstructor; eassumption].
  - unfold bind, try_catch; enumerate; solve [econstructor; eassumption].
Qed.

Lemma ceremony_intro webauthn self req session response clientDataJSON
    clientData type :
  extractor (options self) req = Done session ->
  Js.get (body req) "response" = Done response ->
  Js.get response "clientDataJSON" = Done clientDataJSON ->
  decodeClientData webauthn clientDataJSON = Done clientData ->
  Js.get clientData "type" = Done type ->
  Ceremony webauthn self req session type.
Proof.
  intros Hext Hresp Hcdj Hdec Hty. split; [exact Hext |].
  unfold clientDataTypeOf. now rewrite Hresp, Hcdj, Hdec.
Qed.

(** Every event of a run of [authenticate] is one the relation
    [Emitted] lists. *)
Lemma authenticate_emits webauthn self req :
  allEvents (Emitted webauthn self req) (fst (authenticate webauthn self req)).
Proof.
  unfold authenticate; cbv zeta.
  apply all_bind; [apply all_await | intros session Hext; cbn [snd await] in Hext].
  apply all_bind; [apply all_await | intros response Hresp; cbn [snd await] in Hresp].
  apply all_bind; [apply all_await | intros clientDataJSON Hcdj; cbn [snd await] in Hcdj].
  apply all_bind; [apply all_await | intros clientData Hdec; cbn [snd await] in Hdec].
  apply all_bind; [apply all_await | intros type Hty; cbn [snd await] in Hty].
  pose proof (ceremony_intro _ _ _ _ _ _ _ _ Hext Hresp Hcdj Hdec Hty) as HC.
  destruct (Js.strict_eq_str type "webauthn.create") eqn:Tc.
  - (* registration *)
    apply strict_eq_str_true in Tc. subst type.
    destruct (user session) as [u |] eqn:Hu;
      [| apply all_emit; now apply (em_no_session_user _ _ _ session)].
    apply all_bind;
      [apply all_emit; now apply (em_verify_registration _ _ _ session u) |].
    intros _ _.
    apply all_bind; [apply all_await | intros rr Hrr; cbn [snd await] in Hrr].
    destruct (registrationInfo rr) as [ri |] eqn:Hri;
      [| apply all_emit; now apply (em_registration_failed _ _ _ session u rr)].
    assert (HR : Registered webauthn self req session u rr ri)
      by (split; [exact HC | repeat split; assumption]).
    pose proof (em_registration_fn _ _ _ _ _ _ _ HR) as Hcall.
    destruct (fnLength (registrationFn self) <? 4)%nat eqn:L.
    + apply Nat.ltb_lt in L.
      destruct (fnDirect (registrationFn self) req (u, ri))
        as [[newUser |] | err |] eqn:Hd;
        unfold try_catch, bind; enumerate; try exact Hcall.
      * now apply (em_registered _ _ _ session u rr ri newUser).
      * now apply (em_user_not_found _ _ _ session u rr ri).
      * now apply (em_registration_error _ _ _ session u rr ri err).
    + apply Nat.ltb_ge in L.
      apply all_bind; [apply all_emit; exact Hcall | intros _ _].
      destruct (fnCallback (registrationFn self) req (u, ri))
        as [calls thrown] eqn:Hcb.
      apply all_bind; [| intros; apply all_rethrow].
      apply all_each_detach. intros c Hc.
      assert (Hc' : In c (fst (fnCallback (registrationFn self) req (u, ri))))
        by now rewrite Hcb.
      rewrite concludeRegistration_run. enumerate.
      * now apply (em_conclude_registration _ _ _ session u rr ri c).
      * now apply (em_registration_signal _ _ _ session u rr ri c).
  - apply strict_eq_str_false in Tc.
    destruct (Js.strict_eq_str type "webauthn.get") eqn:Tg.
    + (* authentication *)
      apply strict_eq_str_true in Tg. subst type.
      apply all_bind; [apply all_await | intros response' Hresp'; cbn [snd await] in Hresp'].
      rewrite Hresp in Hresp'. injection Hresp' as <-.
      apply all_bind; [apply all_await | intros h Hh; cbn [snd await] in Hh].
      assert (HH : userHandleOf req = Done h)
        by (unfold userHandleOf; now rewrite Hresp).
      destruct (Js.truthy h) eqn:Th.
      2: { replace (match user session with
                    | Some user0 => false && negb (Js.strict_eq_str h (id user0))
                    | None => false
                    end) with false by now destruct (user session).
           apply all_emit. now apply (em_not_present _ _ _ session h). }
      assert (Hcase :
        (exists u, user session = Some u /\ h <> JStr (id u)) \/
        (forall u, user session = Some u -> h = JStr (id u))).
      { destruct (user session) as [u |]; [| right; discriminate].
        destruct (Js.strict_eq_str h (id u)) eqn:Eq.
        - right. intros u' [= <-]. now apply strict_eq_str_true.
        - left. exists u. split; [reflexivity | now apply strict_eq_str_false]. }
      destruct Hcase as [(u & Hu & Hne) | Hsame].
      { rewrite Hu. apply strict_eq_str_false in Hne as Hne'. rewrite Hne'.
        apply all_emit. now apply (em_mismatch _ _ _ session u h). }
      replace (match user session with
               | Some user0 => true && negb (Js.strict_eq_str h (id user0))
               | None => false
               end) with false.
      2: { destruct (user session) as [u |] eqn:Hu; [| reflexivity].
           rewrite (Hsame u eq_refl). cbn. now rewrite String.eqb_refl. }
      cbn [negb].
      assert (HA : Assertion webauthn self req session h)
        by (split; [exact HC | repeat split; assumption]).
      fold (resolvedIdentity session h).
      destruct (Js.get (body req) "id") as [cred | err | ] eqn:Hid.
      2: { destruct (fnLength (authenticationFn self) <? 4)%nat;
             unfold try_catch, bind; enumerate.
           (* reading [body.id] cannot throw once [body.response] was read *)
           exfalso. unfold Js.get in Hresp, Hid.
           destruct (body req) as [| | | | | | fs]; try discriminate.
           destruct (Js.lookup "id" fs); discriminate. }
      2: { destruct (fnLength (authenticationFn self) <? 4)%nat;
             unfold try_catch, bind; enumerate. }
      assert (HL : Looked webauthn self req session h cred) by now split.
      pose proof (em_lookup _ _ _ _ _ _ HL) as Hcall.
      destruct (fnLength (authenticationFn self) <? 4)%nat eqn:L.
      * apply Nat.ltb_lt in L. unfold verifyAuthenticator.
        rewrite bind_await_Done, bind_emit.
        destruct (fnDirect (authenticationFn self) req
                    (cred, resolvedIdentity session h))
          as [[p |] | err |] eqn:Hd;
          rewrite ?bind_await_Done, ?bind_await_Raised, ?bind_await_Pending.
        -- pose proof (em_verify_authentication _ _ _ _ _ _ p HL L Hd) as Hver.
           destruct (verifyAuthenticationResponse webauthn
                       (authenticationArgs self req (challenge session)
                          (body req) (authenticator p)))
             as [v | err |] eqn:Hv.
           ++ destruct (Js.truthy v) eqn:Tv; unfold try_catch, bind; cbn;
                rewrite Tv; enumerate; try exact Hcall; try exact Hver.
              ** now apply (em_authenticated _ _ _ session h cred p v).
              ** now apply (em_refused _ _ _ session h cred p v).
           ++ unfold try_catch, bind; enumerate; try exact Hcall; try exact Hver.
              now apply (em_verifier_error _ _ _ session h cred p err).
           ++ unfold try_catch, bind; enumerate; try exact Hcall; try exact Hver.
        -- unfold try_catch, bind; enumerate; try exact Hcall.
           now apply (em_invalid_credential _ _ _ session h cred).
        -- unfold try_catch, bind; enumerate; try exact Hcall.
           now apply (em_lookup_error _ _ _ session h cred err).
        -- unfold try_catch, bind; enumerate; try exact Hcall.
      * apply Nat.ltb_ge in L. rewrite bind_await_Done.
        apply all_bind; [apply all_emit; exact Hcall | intros _ _].
        destruct (fnCallback (authenticationFn self) req
                    (cred, resolvedIdentity session h))
          as [calls thrown] eqn:Hcb.
        apply all_bind; [| intros; apply all_rethrow].
        cbn [fst happen].
        apply (all_Permutation _ _ _
                 (Permutation_sym (play_all webauthn self req (challenge session)
                                     (body req) (timeline webauthn) calls))).
        apply all_flat_map. intros c Hc e He.
        apply (em_concluded _ _ _ session h cred c e HL L).
        -- now rewrite Hcb.
        -- now apply concludeAuthentication_emits.
    + (* unsupported *)
      apply strict_eq_str_false in Tg.
      apply all_bind; [apply all_await | intros text Ht; cbn [snd await] in Ht].
      apply all_emit. now apply (em_unsupported _ _ _ session type text).
Qed.

(** ** The claims about every run *)

Lemma handedOver_app t1 t2 :
  handedOver (t1 ++ t2) = handedOver t1 || handedOver t2.
Proof. apply existsb_app. Qed.

Lemma Silent_not_handedOver {A} (m : Run A) (f : A -> Run unit) a :
  snd m = Done a ->
  handedOver (fst (bind m f)) = false -> handedOver (fst (f a)) = false.
Proof.
  unfold bind. intros ->. cbn [fst]. rewrite handedOver_app.
  intros H. now apply orb_false_elim in H.
Qed.

Lemma Unattended_bind {A} (m : Run A) (f : A -> Run unit) :
  Silent m -> (forall a, Unattended (f a)) -> Unattended (bind m f).
Proof.
  intros Hm Hf Hh.
  destruct (snd m) as [a | e |] eqn:E.
  - pose proof (Hf a (Silent_not_handedOver m f a E Hh)) as [Hc Hs].
    destruct Hm as [Hms Hmc]. unfold Strict, bind. rewrite E. cbn [fst snd].
    now rewrite signals_app, concludes_app, Hms, Hmc, Hc.
  - destruct Hm as [Hms Hmc]. unfold Strict, bind. rewrite E. now cbn [fst snd].
  - destruct Hm as [Hms Hmc]. unfold Strict, bind. rewrite E. now cbn [fst snd].
Qed.

Lemma Unattended_Strict (r : Run unit) : Strict r -> Unattended r.
Proof. now intros H _. Qed.

Lemma Unattended_handOver (e : Event) (k : unit -> Run unit) :
  isHandOver e = true -> Unattended (emit e ;;; k tt).
Proof.
  intros He Hh. rewrite bind_emit in Hh. cbn [fst handedOver existsb] in Hh.
  rewrite He in Hh. discriminate Hh.
Qed.

(** A run that hands no completion callback over decides by itself. *)
Lemma authenticate_Unattended webauthn self req :
  Unattended (authenticate webauthn self req).
Proof.
  unfold authenticate; cbv zeta.
  apply Unattended_bind; [apply Silent_await | intros session].
  apply Unattended_bind; [apply Silent_await | intros response].
  apply Unattended_bind; [apply Silent_await | intros clientDataJSON].
  apply Unattended_bind; [apply Silent_await | intros clientData].
  apply Unattended_bind; [apply Silent_await | intros type].
  destruct (Js.strict_eq_str type "webauthn.create").
  - destruct (user session) as [u |]; [| apply Unattended_Strict; strict].
    apply Unattended_bind; [apply Silent_emit; reflexivity | intros _].
    apply Unattended_bind; [apply Silent_await | intros rr].
    destruct (registrationInfo rr) as [info |];
      [| apply Unattended_Strict; strict].
    destruct (fnLength (registrationFn self) <? 4)%nat.
    + apply Unattended_Strict; strict.
    + now apply (Unattended_handOver (ERegistrationFn u info true)).
  - destruct (Js.strict_eq_str type "webauthn.get").
    + apply Unattended_bind; [apply Silent_await | intros response'].
      apply Unattended_bind; [apply Silent_await | intros userHandle].
      destruct (match user session with Some _ => _ | None => _ end);
        [apply Unattended_Strict; strict |].
      destruct (negb (Js.truthy userHandle));
        [apply Unattended_Strict; strict |].
      destruct (fnLength (authenticationFn self) <? 4)%nat.
      * apply Unattended_Strict; strict.
      * apply Unattended_bind; [apply Silent_await | intros cred].
        now apply (Unattended_handOver (EAuthenticationFn cred _ true)).
    + apply Unattended_Strict; strict.
Qed.

(** A run hands over only on the two callback-style dispatches. *)
Lemma handedOver_paths webauthn self req :
  handedOver (fst (authenticate webauthn self req)) = true ->
  (exists session u rr ri,
     Registered webauthn self req session u rr ri /\
     4 <= fnLength (registrationFn self)) \/
  (exists session h cred,
     Looked webauthn self req session h cred /\
     4 <= fnLength (authenticationFn self)).
Proof.
  intros H. apply existsb_exists in H as (e & Hin & He).
  apply authenticate_emits in Hin.
  inversion Hin; subst; try (cbn in He; discriminate He);
    try match goal with
      | H : ConcludedAuthentication _ _ _ _ _ _ _ |- _ =>
          inversion H; subst; cbn in He; discriminate He
      end.
  - left. exists session, u, rr, ri. split; [assumption |].
    destruct (fnLength (registrationFn self) <? 4)%nat eqn:L;
      [discriminate He | now apply Nat.ltb_ge].
  - exfalso. unfold completionSignal in He.
    destruct (Js.truthy (cErr c)); [discriminate He |].
    destruct (cResult c); discriminate He.
  - right. exists session, h, cred. split; [assumption |].
    destruct (fnLength (authenticationFn self) <? 4)%nat eqn:L;
      [discriminate He | now apply Nat.ltb_ge].
Qed.

(** The callback-style registration run. *)
Lemma registration_callback_trace webauthn self req session u rr ri :
  Registered webauthn self req session u rr ri ->
  4 <= fnLength (registrationFn self) ->
  fst (authenticate webauthn self req) =
    EVerifyRegistration (registrationArgs self req (challenge session) (body req))
    :: ERegistrationFn u ri true
    :: flat_map (fun c => fst (concludeRegistration c))
                (fst (fnCallback (registrationFn self) req (u, ri))).
Proof.
  intros (H & Hu & Hv & Hi) Hlen. classify H.
  change (Js.strict_eq_str (JStr "webauthn.create") "webauthn.create") with true.
  cbv iota. rewrite Hu, bind_emit, Hv, bind_await_Done, Hi.
  apply Nat.ltb_ge in Hlen. rewrite Hlen, bind_emit.
  destruct (fnCallback (registrationFn self) req (u, ri)) as [calls thrown].
  cbn [fst snd]. unfold bind. rewrite each_detach_Done. cbn [fst snd].
  rewrite each_detach_trace.
  destruct thrown; cbn [rethrow fst snd ret]; now rewrite ?app_nil_r.
Qed.

(** The callback-style lookup run: the call, then the invocations of
    the completion callback as the timeline orders them. *)
Lemma lookup_callback_run webauthn self req session h cred :
  Looked webauthn self req session h cred ->
  4 <= fnLength (authenticationFn self) ->
  authenticate webauthn self req =
    (EAuthenticationFn cred (resolvedIdentity session h) true
     :: play webauthn self req (challenge session) (body req) (timeline webauthn) 0
          (fst (fnCallback (authenticationFn self) req
                  (cred, resolvedIdentity session h))) [],
     match snd (fnCallback (authenticationFn self) req
                  (cred, resolvedIdentity session h)) with
     | Some e => Raised e
     | None => Done tt
     end).
Proof.
  intros [H Hid] Hlen.
  apply Nat.ltb_ge in Hlen. unfold resolvedIdentity in *.
  assertion H. rewrite Hlen, Hid, bind_await_Done, bind_emit.
  destruct (fnCallback (authenticationFn self) req _) as [calls thrown].
  cbn [fst snd]. unfold bind, happen. cbn [fst snd].
  destruct thrown; cbn [rethrow fst snd ret]; now rewrite ?app_nil_r.
Qed.

(** C2, as the code has it.  A run of [authenticate] that hands no
    completion callback to a developer function, as every run with
    promise-style functions is, invokes no completion, emits at most
    one terminal signal, and exactly one whenever the promise returned
    by [authenticate] fulfils.  A run that hands the completion
    callback over is a callback-style registration after a successful
    verification or a callback-style lookup, and the core emits no
    terminal signal of its own in it: on the registration path the
    terminal signals are exactly the signals of the invocations of the
    completion callback that the function makes, one per invocation, in
    their order; on the lookup path they are, up to their order,
    exactly the signals of the invocations that the function makes, at
    most one per invocation.  So no invocation means no signal and
    several invocations may mean several signals; in every run there
    are no more terminal signals than invocations, the single signal of
    a run without invocation apart. *)
Theorem terminal_signal_discipline webauthn self req :
  let r := authenticate webauthn self req in
  List.length (signals (fst r))
    <= Nat.max 1 (List.length (concludes (fst r))) /\
  (promiseStyle self ->
   concludes (fst r) = [] /\
   List.length (signals (fst r)) <= 1 /\
   (snd r = Done tt -> List.length (signals (fst r)) = 1)) /\
  (forall c, List.length (signals (fst (concludeRegistration c))) = 1) /\
  (forall challenge authentication c,
     List.length (signals (fst (concludeAuthentication webauthn self req
                                  challenge authentication c))) <= 1) /\
  (promiseStyle self -> handedOver (fst r) = false) /\
  (handedOver (fst r) = false ->
   concludes (fst r) = [] /\
   List.length (signals (fst r)) <= 1 /\
   (snd r = Done tt -> List.length (signals (fst r)) = 1)) /\
  (handedOver (fst r) = true ->
   (exists session u rr ri,
      Registered webauthn self req session u rr ri /\
      4 <= fnLength (registrationFn self)) \/
   (exists session h cred,
      Looked webauthn self req session h cred /\
      4 <= fnLength (authenticationFn self))) /\
  (forall session u rr ri,
     Registered webauthn self req session u rr ri ->
     4 <= fnLength (registrationFn self) ->
     handedOver (fst r) = true /\
     signals (fst r) =
       map (completionSignal (fun user => user))
           (fst (fnCallback (registrationFn self) req (u, ri)))) /\
  (forall session h cred,
     Looked webauthn self req session h cred ->
     4 <= fnLength (authenticationFn self) ->
     handedOver (fst r) = true /\
     Permutation
       (signals (fst r))
       (flat_map
          (fun c => signals (fst (concludeAuthentication webauthn self req
                                    (challenge session) (body req) c)))
          (fst (fnCallback (authenticationFn self) req
                  (cred, resolvedIdentity session h))))).
Proof.
  intros r. destruct (authenticate_Disciplined webauthn self req) as [HB HS].
  pose proof (authenticate_Unattended webauthn self req) as HU.
  pose proof (handedOver_paths webauthn self req) as HP.
  fold r in HB, HS, HU, HP.
  assert (Hstrict : Strict r ->
    concludes (fst r) = [] /\
    List.length (signals (fst r)) <= 1 /\
    (snd r = Done tt -> List.length (signals (fst r)) = 1)).
  { intros [Hc Hs]. split; [exact Hc |]. split.
    - destruct (snd r); rewrite Hs; cbn; lia.
    - intros E. now rewrite E in Hs. }
  assert (Hpromise : promiseStyle self -> handedOver (fst r) = false).
  { intros [P1 P2]. destruct (handedOver (fst r)) eqn:E; [| reflexivity].
    destruct (HP eq_refl) as [(s & u & rr & ri & _ & L)
                             | (s & h & cred & _ & L)]; lia. }
  split; [exact HB |].
  split; [intros PS; apply Hstrict, HS, PS |].
  split; [intros c; apply concludeRegistration_counts |].
  split; [intros challenge authentication c;
          apply concludeAuthentication_counts |].
  split; [exact Hpromise |].
  split; [intros Hh; apply Hstrict, HU, Hh |].
  split; [exact HP |].
  split.
  - intros session u rr ri HR Hlen. subst r.
    rewrite (registration_callback_trace _ _ _ _ _ _ _ HR Hlen).
    split; [reflexivity |].
    cbn [signals filter isSignal]. fold (signals).
    unfold signals. rewrite filter_flat_map.
    induction (fst (fnCallback (registrationFn self) req (u, ri)))
      as [| c calls IH]; [reflexivity |].
    cbn [flat_map map]. rewrite IH, concludeRegistration_run.
    cbn [fst filter isSignal]. now rewrite completionSignal_isSignal.
  - intros session h cred HL Hlen. subst r.
    rewrite (lookup_callback_run _ _ _ _ _ _ HL Hlen).
    split; [reflexivity |].
    cbn [fst signals filter isSignal]. unfold signals.
    rewrite <- filter_flat_map. apply Permutation_filter'. apply play_all.
Qed.

(** C5, as the code has it.  Every recoverable failure that
    [authenticate] emits either is worded by the strategy, carrying
    [{ message }] and a status hint of 400, 404 or 500, or relays a
    completion callback that was invoked without error and without
    result, carrying the [info] of that invocation unchanged and no
    status hint; with promise-style developer functions all failures
    are of the first kind.  Conversely an invocation of either
    completion callback without error and without result emits exactly
    the failure carrying its [info] and no status hint, and for every
    such invocation that a callback-style function makes, that failure
    is in the run. *)
Theorem failures_worded_or_relayed webauthn self req :
  let t := fst (authenticate webauthn self req) in
  (forall info status,
     In (EFail info status) t ->
     coreFailure info status \/ relayedFailure t info status) /\
  (promiseStyle self ->
   forall info status, In (EFail info status) t -> coreFailure info status) /\
  (forall c,
     Js.truthy (cErr c) = false -> cResult c = None ->
     concludeRegistration c =
       ([EConcludeRegistration c; EFail (cInfo c) None], Done tt)) /\
  (forall challenge authentication c,
     Js.truthy (cErr c) = false -> cResult c = None ->
     concludeAuthentication webauthn self req challenge authentication c =
       ([EConcludeAuthentication c; EFail (cInfo c) None], Done tt)) /\
  (forall session u rr ri c,
     Registered webauthn self req session u rr ri ->
     4 <= fnLength (registrationFn self) ->
     In c (fst (fnCallback (registrationFn self) req (u, ri))) ->
     Js.truthy (cErr c) = false -> cResult c = None ->
     In (EFail (cInfo c) None) t) /\
  (forall session h cred c,
     Looked webauthn self req session h cred ->
     4 <= fnLength (authenticationFn self) ->
     In c (fst (fnCallback (authenticationFn self) req
                  (cred, resolvedIdentity session h))) ->
     Js.truthy (cErr c) = false -> cResult c = None ->
     In (EFail (cInfo c) None) t).
Proof.
  intros t. pose proof (authenticate_accounted webauthn self req) as Ha.
  fold t in Ha.
  assert (Hreg : forall c,
    Js.truthy (cErr c) = false -> cResult c = None ->
    concludeRegistration c =
      ([EConcludeRegistration c; EFail (cInfo c) None], Done tt)).
  { intros c He Hr. rewrite concludeRegistration_run. unfold completionSignal.
    now rewrite He, Hr. }
  assert (Hauth : forall challenge authentication c,
    Js.truthy (cErr c) = false -> cResult c = None ->
    concludeAuthentication webauthn self req challenge authentication c =
      ([EConcludeAuthentication c; EFail (cInfo c) None], Done tt)).
  { intros challenge authentication c He Hr. unfold concludeAuthentication.
    now rewrite bind_emit, He, Hr. }
  split; [exact Ha |]. split.
  { intros PS info status Hin. destruct (Ha _ _ Hin) as [Hc | Hr]; [exact Hc |].
    exfalso. revert Hr. apply no_conclude_no_relay.
    destruct (authenticate_Disciplined webauthn self req) as [_ HS].
    now destruct (HS PS). }
  split; [exact Hreg |]. split; [exact Hauth |]. split.
  - intros session u rr ri c HR Hlen Hin He Hr. subst t.
    rewrite (registration_callback_trace _ _ _ _ _ _ _ HR Hlen).
    right; right. apply in_flat_map. exists c. split; [exact Hin |].
    rewrite (Hreg c He Hr). right; left; reflexivity.
  - intros session h cred c HL Hlen Hin He Hr. subst t.
    rewrite (lookup_callback_run _ _ _ _ _ _ HL Hlen). cbn [fst]. right.
    apply (Permutation_in _
             (Permutation_sym (play_all webauthn self req (challenge session)
                                 (body req) (timeline webauthn) _))).
    apply in_flat_map. exists c. split; [exact Hin |].
    rewrite (Hauth _ _ c He Hr). right; left; reflexivity.
Qed.

(** ** The claims on concrete ceremonies *)

Import Fixture.
Import Cases.

Lemma registration_dual_invocation_witness :
  Ceremony accepting (promises (Some u1)) createReq (session (Some u1))
           (JStr "webauthn.create") /\
  fnLength (registrationFn (promises (Some u1))) < 4 /\
  authenticate accepting (promises (Some u1)) createReq =
    ([EVerifyRegistration
        (registrationArgs (promises (Some u1)) createReq "c1" (body createReq));
      ERegistrationFn u1 info0 false;
      ESuccess u1 JUndefined], Done tt).
Proof.
  assert (L : fnLength (registrationFn (promises (Some u1))) < 4) by (cbn; lia).
  split; [split; reflexivity |]. split; [exact L |].
  destruct (registration_dual_invocation accepting (promises (Some u1)) createReq
              (session (Some u1)) u1 verified0 info0
              (conj eq_refl eq_refl) eq_refl eq_refl eq_refl) as [Hp _].
  destruct (Hp L) as (_ & _ & Hs). exact (Hs u1 eq_refl).
Defined.

(** C2 fails on the code: the registration function of the README,
    called for a user that cannot be created, completes twice, and the
    run carries two terminal signals. *)
Lemma readme_registration_signals_twice :
  signals (fst (authenticate accepting
                  (strategy (Some u1) (loginDirect (Done None)) readmeRegister)
                  createReq))
    = [EError dbDown; EFail JUndefined None] /\
  ~ List.length
      (signals (fst (authenticate accepting
                       (strategy (Some u1) (loginDirect (Done None)) readmeRegister)
                       createReq))) <= 1.
Proof.
  split; [reflexivity |]. vm_compute. lia.
Qed.

Lemma terminal_signal_discipline_witness :
  promiseStyle (promises None) /\
  snd (authenticate accepting (promises None) getReq) = Done tt /\
  List.length (signals (fst (authenticate accepting (promises None) getReq))) = 1 /\
  Registered accepting
    (strategy (Some u1) (loginDirect (Done None)) readmeRegister) createReq
    (session (Some u1)) u1 verified0 info0 /\
  4 <= fnLength readmeRegister /\
  signals (fst (authenticate accepting
                  (strategy (Some u1) (loginDirect (Done None)) readmeRegister)
                  createReq)) =
    [EError dbDown; EFail JUndefined None].
Proof.
  assert (PS : promiseStyle (promises None)) by (split; cbn; lia).
  assert (HR : Registered accepting
                 (strategy (Some u1) (loginDirect (Done None)) readmeRegister)
                 createReq (session (Some u1)) u1 verified0 info0)
    by (repeat split).
  assert (HL : 4 <= fnLength readmeRegister) by (cbn; lia).
  split; [exact PS |]. split; [reflexivity |].
  split.
  - destruct (terminal_signal_discipline accepting (promises None) getReq)
      as (_ & Hp & _).
    destruct (Hp PS) as (_ & _ & H1). exact (H1 eq_refl).
  - split; [exact HR |]. split; [exact HL |].
    destruct (terminal_signal_discipline accepting
                (strategy (Some u1) (loginDirect (Done None)) readmeRegister)
                createReq) as (_ & _ & _ & _ & _ & _ & _ & Hreg & _).
    exact (proj2 (Hreg (session (Some u1)) u1 verified0 info0 HR HL)).
Defined.

(** C3 fails on the code: with session user [u1] and the empty string
    as user handle, which differs from ["u1"], the failure is
    ['User handle not present'], not the mismatch. *)
Lemma empty_handle_is_not_a_mismatch :
  Ceremony accepting (promises (Some u1)) emptyHandleReq (session (Some u1))
           (JStr "webauthn.get") /\
  userHandleOf emptyHandleReq = Done (JStr EmptyString) /\
  JStr EmptyString <> JStr (id u1) /\
  authenticate accepting (promises (Some u1)) emptyHandleReq =
    ([EFail (Js.message "User handle not present") (Some 400%Z)], Done tt) /\
  ~ In (EFail (Js.message "User handle does not match session") (Some 400%Z))
       (fst (authenticate accepting (promises (Some u1)) emptyHandleReq)).
Proof.
  split; [split; reflexivity |]. split; [reflexivity |].
  split; [discriminate |]. split; [reflexivity |].
  intros [H | []]. discriminate H.
Qed.

Lemma user_handle_mismatch_fails_witness :
  Ceremony accepting (promises (Some u1)) getReq (session (Some u1))
           (JStr "webauthn.get") /\
  userHandleOf getReq = Done (JStr "u2") /\
  authenticate accepting (promises (Some u1)) getReq =
    ([EFail (Js.message "User handle does not match session") (Some 400%Z)],
     Done tt) /\
  lookupCalls (fst (authenticate accepting (promises (Some u1)) getReq)) = [].
Proof.
  split; [split; reflexivity |]. split; [reflexivity |].
  apply (user_handle_mismatch_fails accepting (promises (Some u1)) getReq
           (session (Some u1)) u1 (JStr "u2")).
  - split; reflexivity.
  - reflexivity.
  - reflexivity.
  - reflexivity.
  - discriminate.
Defined.

Lemma promise_style_verifier_throw_not_logged_witness :
  Assertion throwing (promises None) getReq (session None) (JStr "u2") /\
  authenticate throwing (promises None) getReq =
    ([EAuthenticationFn (JStr "AQI") (JStr "u2") false;
      EVerifyAuthentication
        (authenticationArgs (promises None) getReq "c1" (body getReq) device0);
      EError boom], Done tt) /\
  logged (fst (authenticate throwing (promises None) getReq)) = [].
Proof.
  assert (A : Assertion throwing (promises None) getReq (session None)
                (JStr "u2")).
  { repeat split; try reflexivity. intros u H. discriminate H. }
  split; [exact A |].
  apply (promise_style_verifier_throw_not_logged throwing (promises None) getReq
           (session None) (JStr "u2") (JStr "AQI") pairing2 boom A).
  - cbn; lia.
  - reflexivity.
  - reflexivity.
  - reflexivity.
Defined.

(** C5 fails on the code: a callback-style registration function that
    completes without user and without info makes the strategy emit a
    failure with neither message nor status hint. *)
Lemma silent_completion_failure_has_no_hint :
  In (EFail JUndefined None)
     (fst (authenticate accepting
             (strategy (Some u1) (loginDirect (Done None)) silentRegister)
             createReq)) /\
  ~ coreFailure JUndefined None.
Proof.
  split.
  - vm_compute. auto.
  - intros [[m H] _]. discriminate H.
Qed.

Lemma failures_worded_or_relayed_witness :
  Registered accepting
    (strategy (Some u1) (loginDirect (Done None))
       (registerCallback [mkCompletion JNull None notAllowed]))
    createReq (session (Some u1)) u1 verified0 info0 /\
  In (EFail notAllowed None)
     (fst (authenticate accepting
             (strategy (Some u1) (loginDirect (Done None))
                (registerCallback [mkCompletion JNull None notAllowed]))
             createReq)) /\
  (coreFailure notAllowed None \/
   relayedFailure
     (fst (authenticate accepting
             (strategy (Some u1) (loginDirect (Done None))
                (registerCallback [mkCompletion JNull None notAllowed]))
             createReq))
     notAllowed None).
Proof.
  assert (R : Registered accepting
                (strategy (Some u1) (loginDirect (Done None))
                   (registerCallback [mkCompletion JNull None notAllowed]))
                createReq (session (Some u1)) u1 verified0 info0)
    by (repeat split).
  destruct (failures_worded_or_relayed accepting
              (strategy (Some u1) (loginDirect (Done None))
                 (registerCallback [mkCompletion JNull None notAllowed]))
              createReq) as (Ha & _ & _ & _ & He & _).
  pose proof (He (session (Some u1)) u1 verified0 info0
                (mkCompletion JNull None notAllowed) R
                (le_n 4) (or_introl eq_refl) eq_refl eq_refl) as I.
  split; [exact R |]. split; [exact I |]. exact (Ha _ _ I).
Defined.

(** C6 fails on the code: client data that is not JSON makes the
    decoding throw, and the run ends without any signal. *)
Lemma malformed_client_data_emits_no_signal :
  clientDataTypeOf accepting notJsonReq = Raised SyntaxError /\
  authenticate accepting (promises None) notJsonReq = ([], Raised SyntaxError) /\
  ~ (exists err, In (EError err)
                    (fst (authenticate accepting (promises None) notJsonReq))).
Proof.
  split; [reflexivity |]. split; [reflexivity |].
  intros [err H]. exact H.
Qed.

Lemma undecodable_payload_rejects_witness :
  clientDataTypeOf accepting notJsonReq = Raised SyntaxError /\
  authenticate accepting (promises None) notJsonReq = ([], Raised SyntaxError).
Proof.
  split; [reflexivity |].
  apply (undecodable_payload_rejects accepting (promises None) notJsonReq
           (session None) SyntaxError); reflexivity.
Defined.

Lemma lookup_without_pairing_message_witness :
  Assertion accepting (nobody None) getReq (session None) (JStr "u2") /\
  authenticate accepting (nobody None) getReq =
    ([EAuthenticationFn (JStr "AQI") (JStr "u2") false;
      EFail (Js.message "Invelid credential") (Some 400%Z)], Done tt) /\
  Js.message "Invelid credential" <> Js.message "Invalid credential".
Proof.
  assert (A : Assertion accepting (nobody None) getReq (session None)
                (JStr "u2")).
  { repeat split; try reflexivity. intros u H. discriminate H. }
  split; [exact A |].
  apply (lookup_without_pairing_message accepting (nobody None) getReq
           (session None) (JStr "u2") (JStr "AQI") A).
  - cbn; lia.
  - reflexivity.
  - reflexivity.
Defined.

(** C8 fails on the code: client data whose type is the object
    [{ toString: "x" }] is neither of the two supported types, and the
    run carries no failure: building the message throws. *)
Lemma unrenderable_type_emits_nothing :
  Ceremony parsing (promises None) unrenderableReq (session None)
           (JObj [("toString", JStr "x")]) /\
  JObj [("toString", JStr "x")] <> JStr "webauthn.create" /\
  JObj [("toString", JStr "x")] <> JStr "webauthn.get" /\
  authenticate parsing (promises None) unrenderableReq =
    ([], Raised (Js.TypeError "Cannot convert object to primitive value")) /\
  ~ (exists info status,
       In (EFail info status)
          (fst (authenticate parsing (promises None) unrenderableReq))).
Proof.
  split; [split; reflexivity |]. split; [discriminate |].
  split; [discriminate |]. split; [reflexivity |].
  intros (info & status & H). exact H.
Qed.

Lemma unsupported_type_fails_witness :
  Ceremony accepting (promises None) paymentReq (session None)
           (JStr "payment.get") /\
  authenticate accepting (promises None) paymentReq =
    ([EFail (Js.message "Unsupported response type: payment.get") (Some 400%Z)],
     Done tt).
Proof.
  split; [split; reflexivity |].
  destruct (unsupported_type_fails accepting (promises None) paymentReq
              (session None) (JStr "payment.get")) as (_ & Hs & _).
  - split; reflexivity.
  - discriminate.
  - discriminate.
  - exact (Hs "payment.get" eq_refl).
Defined.

Lemma registration_requires_session_user_witness :
  Ceremony accepting (promises None) createReq (session None)
           (JStr "webauthn.create") /\
  authenticate accepting (promises None) createReq =
    ([EFail (Js.message "User not in session") (Some 404%Z)], Done tt).
Proof.
  split; [split; reflexivity |].
  apply (registration_requires_session_user accepting (promises None) createReq
           (session None)).
  - split; reflexivity.
  - reflexivity.
Defined.

Lemma empty_user_handle_not_present_witness :
  Ceremony accepting (promises (Some u1)) emptyHandleReq (session (Some u1))
           (JStr "webauthn.get") /\
  authenticate accepting (promises (Some u1)) emptyHandleReq =
    ([EFail (Js.message "User handle not present") (Some 400%Z)], Done tt).
Proof.
  split; [split; reflexivity |].
  apply (empty_user_handle_not_present accepting (promises (Some u1))
           emptyHandleReq (session (Some u1))).
  - split; reflexivity.
  - reflexivity.
Defined.

(** ** The scenarios of the specification *)

(** Scenario A: a callback-style registration function (arity 4) that
    completes with [(undefined, user)] makes the run succeed with that
    user. *)
Example scenario_A :
  signals (fst (authenticate accepting
                  (strategy (Some u1) (loginDirect (Done None))
                     (registerCallback [mkCompletion JUndefined (Some u1) JUndefined]))
                  createReq))
    = [ESuccess u1 JUndefined].
Proof. reflexivity. Qed.

(** Scenario B: the same function completing with an error makes the
    run end in the fatal error carrying it. *)
Example scenario_B :
  signals (fst (authenticate accepting
                  (strategy (Some u1) (loginDirect (Done None))
                     (registerCallback [mkCompletion dbDown None JUndefined]))
                  createReq))
    = [EError dbDown].
Proof. reflexivity. Qed.

(** Scenario C: an assertion without session user, with user handle
    ["u2"], a promise-style lookup resolving the pairing of [u2] and an
    accepting verifier succeeds with the user whose id is ["u2"]. *)
Example scenario_C :
  authenticate accepting (promises None) getReq =
    ([EAuthenticationFn (JStr "AQI") (JStr "u2") false;
      EVerifyAuthentication
        (authenticationArgs (promises None) getReq "c1" (body getReq) device0);
      ESuccess u2 JUndefined], Done tt) /\
  id u2 = "u2".
Proof. split; reflexivity. Qed.

(** X2.  A registration verifier that throws is not caught: the run
    ends after the verifier call, with the promise of [authenticate]
    rejected, without a terminal signal and without a call of the
    registration function. *)
Lemma registration_verifier_throw_uncaught webauthn self req session u e :
  Ceremony webauthn self req session (JStr "webauthn.create") ->
  user session = Some u ->
  verifyRegistrationResponse webauthn
    (registrationArgs self req (challenge session) (body req)) = Raised e ->
  authenticate webauthn self req =
    ([EVerifyRegistration
        (registrationArgs self req (challenge session) (body req))],
     Raised e).
Proof.
  intros H Hu Hv. classify H.
  change (Js.strict_eq_str (JStr "webauthn.create") "webauthn.create") with true.
  cbv iota. now rewrite Hu, bind_emit, Hv.
Qed.

Example registration_verifier_throw :
  authenticate rejecting (promises (Some u1)) createReq =
    ([EVerifyRegistration
        (registrationArgs (promises (Some u1)) createReq "c1" (body createReq))],
     Raised badChallenge).
Proof. reflexivity. Qed.

(** The callback-style lookup path, with the same pairing and a
    verifier that throws: the thrown value is logged, then reported. *)
Example callback_style_verifier_throw_logged :
  logged (fst (authenticate throwing
                 (strategy None
                    (loginCallback [mkCompletion JNull (Some pairing2) JUndefined])
                    (registerDirect (Done None)))
                 getReq)) = [boom] /\
  signals (fst (authenticate throwing
                  (strategy None
                     (loginCallback [mkCompletion JNull (Some pairing2) JUndefined])
                     (registerDirect (Done None)))
                  getReq)) = [EError boom].
Proof. split; reflexivity. Qed.

(** ** Further properties of [authenticate] *)

(** X1.  A registration ceremony with a session user whose verifier
    resolves without registration info ends in the recoverable failure
    ['Registration failed.'] with status hint 500, right after the
    verifier call: the registration function is not called. *)
Theorem registration_without_info_fails webauthn self req session u rr :
  Ceremony webauthn self req session (JStr "webauthn.create") ->
  user session = Some u ->
  verifyRegistrationResponse webauthn
    (registrationArgs self req (challenge session) (body req)) = Done rr ->
  registrationInfo rr = None ->
  authenticate webauthn self req =
    ([EVerifyRegistration
        (registrationArgs self req (challenge session) (body req));
      EFail (Js.message "Registration failed.") (Some 500%Z)], Done tt).
Proof.
  intros H Hu Hv Hi. classify H.
  change (Js.strict_eq_str (JStr "webauthn.create") "webauthn.create") with true.
  cbv iota. now rewrite Hu, bind_emit, Hv, bind_await_Done, Hi.
Qed.

(** X3.  An assertion whose [response.userHandle] is falsy (absent,
    [null], the empty string) ends in the recoverable failure
    ['User handle not present'] with status hint 400 and nothing else,
    also when the session carries a user. *)
Theorem falsy_user_handle_not_present webauthn self req session h :
  Ceremony webauthn self req session (JStr "webauthn.get") ->
  userHandleOf req = Done h ->
  Js.truthy h = false ->
  authenticate webauthn self req =
    ([EFail (Js.message "User handle not present") (Some 400%Z)], Done tt).
Proof.
  intros H Hh Ht. unfold userHandleOf in Hh. classify H.
  change (Js.strict_eq_str (JStr "webauthn.get") "webauthn.create") with false.
  change (Js.strict_eq_str (JStr "webauthn.get") "webauthn.get") with true.
  cbv iota. rewrite !bind_await_Done, Hh, bind_await_Done, Ht.
  now destruct (user session).
Qed.

(** X4.  In the promise-style lookup path, once the lookup has
    resolved a pairing and the verifier has resolved, the verifier
    decides: a truthy result gives success with the user of the
    pairing and no info, a falsy one the recoverable failure
    ['Authenticator verification failed'] with status hint 400 and no
    success. *)
Theorem promise_style_verifier_decides webauthn self req session h cred p v :
  Looked webauthn self req session h cred ->
  fnLength (authenticationFn self) < 4 ->
  fnDirect (authenticationFn self) req (cred, resolvedIdentity session h)
    = Done (Some p) ->
  verifyAuthenticationResponse webauthn
    (authenticationArgs self req (challenge session) (body req) (authenticator p))
    = Done v ->
  authenticate webauthn self req =
    ([EAuthenticationFn cred (resolvedIdentity session h) false;
      EVerifyAuthentication
        (authenticationArgs self req (challenge session) (body req)
           (authenticator p));
      if Js.truthy v
      then ESuccess (uwaUser p) JUndefined
      else EFail (Js.message "Authenticator verification failed") (Some 400%Z)],
     Done tt).
Proof.
  intros [H Hid] Hlen Hfn Hv.
  apply Nat.ltb_lt in Hlen. unfold resolvedIdentity in *.
  assertion H. rewrite Hlen, Hid, bind_await_Done, bind_emit, Hfn.
  unfold verifyAuthenticator. rewrite bind_await_Done, bind_emit, Hv.
  unfold bind, try_catch. cbn. now destruct (Js.truthy v).
Qed.

(** X5.  The strategy only tests the truthiness of what
    [verifyAuthenticationResponse] resolves to: when it resolves to an
    object, whatever its fields, the promise-style path reports
    success. *)
Theorem object_result_is_accepted webauthn self req session h cred p fields :
  Looked webauthn self req session h cred ->
  fnLength (authenticationFn self) < 4 ->
  fnDirect (authenticationFn self) req (cred, resolvedIdentity session h)
    = Done (Some p) ->
  verifyAuthenticationResponse webauthn
    (authenticationArgs self req (challenge session) (body req) (authenticator p))
    = Done (JObj fields) ->
  signals (fst (authenticate webauthn self req))
    = [ESuccess (uwaUser p) JUndefined].
Proof.
  intros [H Hid] Hlen Hfn Hv.
  apply Nat.ltb_lt in Hlen. unfold resolvedIdentity in *.
  assertion H. rewrite Hlen, Hid, bind_await_Done, bind_emit, Hfn.
  unfold verifyAuthenticator. now rewrite bind_await_Done, bind_emit, Hv.
Qed.

(** X6.  A promise-style lookup that throws or rejects ends the run
    in the fatal error signal carrying the thrown value; the verifier
    is not called. *)
Theorem promise_style_lookup_throw webauthn self req session h cred err :
  Looked webauthn self req session h cred ->
  fnLength (authenticationFn self) < 4 ->
  fnDirect (authenticationFn self) req (cred, resolvedIdentity session h)
    = Raised err ->
  authenticate webauthn self req =
    ([EAuthenticationFn cred (resolvedIdentity session h) false; EError err],
     Done tt).
Proof.
  intros [H Hid] Hlen Hfn.
  apply Nat.ltb_lt in Hlen. unfold resolvedIdentity in *.
  assertion H. now rewrite Hlen, Hid, bind_await_Done, bind_emit, Hfn.
Qed.

(** X7.  One invocation of the authentication completion callback: a
    truthy [err] gives the fatal error and the verifier is not called,
    even when a pairing is passed along; without error and without
    pairing the failure carries [info] and no status; with a pairing
    the verifier decides between success with the user of the pairing
    and [info], and the failure ['Authenticator verification failed']
    with status hint 400; a verifier that never settles leaves the
    invocation without signal. *)
Theorem concludeAuthentication_cases webauthn self req challenge
    authentication c :
  let run := concludeAuthentication webauthn self req challenge authentication c in
  let verification p :=
    authenticationArgs self req challenge authentication (authenticator p) in
  (Js.truthy (cErr c) = true ->
   run = ([EConcludeAuthentication c; EError (cErr c)], Done tt)) /\
  (Js.truthy (cErr c) = false -> cResult c = None ->
   run = ([EConcludeAuthentication c; EFail (cInfo c) None], Done tt)) /\
  (forall p v,
     Js.truthy (cErr c) = false -> cResult c = Some p ->
     verifyAuthenticationResponse webauthn (verification p) = Done v ->
     run = ([EConcludeAuthentication c; EVerifyAuthentication (verification p);
             if Js.truthy v
             then ESuccess (uwaUser p) (cInfo c)
             else EFail (Js.message "Authenticator verification failed")
                        (Some 400%Z)], Done tt)) /\
  (forall p,
     Js.truthy (cErr c) = false -> cResult c = Some p ->
     verifyAuthenticationResponse webauthn (verification p) = Pending ->
     run = ([EConcludeAuthentication c; EVerifyAuthentication (verification p)],
            Pending)).
Proof.
  intros run verification. subst run verification.
  unfold concludeAuthentication, verifyAuthenticator. rewrite bind_emit.
  repeat split.
  - now intros ->.
  - now intros -> ->.
  - intros p v -> -> Hv. unfold bind, try_catch. cbn. rewrite Hv. cbn.
    now destruct (Js.truthy v).
  - intros p -> -> Hv. unfold bind, try_catch. cbn. now rewrite Hv.
Qed.

(** When the lookup function makes all its completion calls in one
    synchronous burst, every invocation gets to its [await] before any
    goes on. *)
Lemma play_burst webauthn self req challenge authentication n :
  forall made todo pending,
  play webauthn self req challenge authentication
    (repeat Invokes n) made todo pending =
  flat_map (started webauthn self req challenge authentication) todo ++
  flat_map snd pending ++
  flat_map (resumed webauthn self req challenge authentication) todo.
Proof.
  induction n as [| n IH]; intros made todo pending; [reflexivity |].
  cbn [repeat play]. destruct todo as [| c todo]; rewrite IH.
  - reflexivity.
  - rewrite flat_map_app. cbn [flat_map snd].
    now rewrite app_nil_r, <- !app_assoc.
Qed.

(** When the lookup function awaits, after each completion call, that
    its verification has settled, the invocations follow each other. *)
Lemma play_inTurn webauthn self req challenge authentication todo :
  forall made,
  play webauthn self req challenge authentication
    (inTurn made (List.length todo)) made todo [] =
  flat_map
    (fun c => fst (concludeAuthentication webauthn self req challenge
                     authentication c))
    todo.
Proof.
  induction todo as [| c todo IH]; intros made; [reflexivity |].
  cbn [List.length inTurn play app filter fst flat_map snd].
  rewrite Nat.eqb_refl. cbn [negb filter flat_map snd].
  now rewrite IH, started_resumed, app_nil_r, <- app_assoc.
Qed.

(** X8.  In the callback-style lookup path the run is the call of the
    lookup function, made with the completion callback, followed by
    the events of the invocations of [concludeAuthentication] that the
    function makes, each invocation split at its [await] of the
    verifier and the parts interleaved as the timeline of the event
    loop has it.  Whatever the timeline, every event of every
    invocation occurs once and the invocations begin in the order in
    which the function makes them.  When the function makes its calls
    in one synchronous burst, the run carries the parts before the
    [await] of all invocations, in order, and then their parts after
    it; when every verification settles before the next call, the run
    carries the invocations one after the other.  The promise
    of [authenticate] fulfils unless the function throws
    synchronously. *)
Theorem callback_style_lookup_relays webauthn self req session h cred :
  Looked webauthn self req session h cred ->
  4 <= fnLength (authenticationFn self) ->
  let behaviour :=
    fnCallback (authenticationFn self) req (cred, resolvedIdentity session h) in
  let call := EAuthenticationFn cred (resolvedIdentity session h) true in
  let invocation c :=
    fst (concludeAuthentication webauthn self req (challenge session)
           (body req) c) in
  let before := started webauthn self req (challenge session) (body req) in
  let after := resumed webauthn self req (challenge session) (body req) in
  (exists rest,
     fst (authenticate webauthn self req) = call :: rest /\
     Permutation rest (flat_map invocation (fst behaviour)) /\
     concludes rest = map EConcludeAuthentication (fst behaviour)) /\
  (forall c, invocation c = before c ++ after c) /\
  (forall n,
     timeline webauthn = repeat Invokes n ->
     fst (authenticate webauthn self req) =
       call :: flat_map before (fst behaviour) ++
               flat_map after (fst behaviour)) /\
  (timeline webauthn = inTurn 0 (List.length (fst behaviour)) ->
   fst (authenticate webauthn self req) =
     call :: flat_map invocation (fst behaviour)) /\
  snd (authenticate webauthn self req) =
    match snd behaviour with
    | Some e => Raised e
    | None => Done tt
    end.
Proof.
  intros HL Hlen behaviour call invocation before after.
  subst behaviour call invocation before after.
  rewrite (lookup_callback_run _ _ _ _ _ _ HL Hlen). cbn [fst snd].
  split.
  { eexists. split; [reflexivity |]. split; [apply play_all |].
    now apply concludes_play. }
  split; [intros c; apply started_resumed |].
  split; [intros n ->; now rewrite play_burst |].
  split; [intros ->; now rewrite play_inTurn | reflexivity].
Qed.

(** X9.  When the session extractor throws, [authenticate] emits
    nothing and calls nobody: the promise it returns rejects with the
    thrown value.  (An extractor that returns [undefined] makes the
    destructuring of its result throw, to the same effect.) *)
Theorem extractor_throw_rejects webauthn self req e :
  extractor (options self) req = Raised e ->
  authenticate webauthn self req = ([], Raised e).
Proof.
  intros H. unfold authenticate; cbv zeta. now rewrite H.
Qed.

(** ** Properties of every run *)

Lemma Ceremony_session webauthn self req session session' type :
  extractor (options self) req = Done session ->
  Ceremony webauthn self req session' type ->
  session' = session.
Proof. intros H [H' _]. congruence. Qed.

Lemma Registered_session webauthn self req session session' u rr ri :
  extractor (options self) req = Done session ->
  Registered webauthn self req session' u rr ri ->
  session' = session.
Proof. intros H [H' _]. eapply Ceremony_session; eassumption. Qed.

Lemma Looked_session webauthn self req session session' h cred :
  extractor (options self) req = Done session ->
  Looked webauthn self req session' h cred ->
  session' = session.
Proof. intros H [[H' _] _]. eapply Ceremony_session; eassumption. Qed.

(** The session of every ceremony in the context is the extracted one. *)
Ltac same_session Hext :=
  repeat match goal with
    | H : Ceremony _ _ _ ?s _ |- _ =>
        tryif constr_eq s ltac:(match type of Hext with _ = Done ?s0 => s0 end)
        then fail
        else (pose proof (Ceremony_session _ _ _ _ _ _ Hext H); subst s)
    | H : Registered _ _ _ ?s _ _ _ |- _ =>
        tryif constr_eq s ltac:(match type of Hext with _ = Done ?s0 => s0 end)
        then fail
        else (pose proof (Registered_session _ _ _ _ _ _ _ _ Hext H); subst s)
    | H : Looked _ _ _ ?s _ _ |- _ =>
        tryif constr_eq s ltac:(match type of Hext with _ = Done ?s0 => s0 end)
        then fail
        else (pose proof (Looked_session _ _ _ _ _ _ _ Hext H); subst s)
    end.

Lemma resolvedIdentity_handle webauthn self req session h :
  Assertion webauthn self req session h -> resolvedIdentity session h = h.
Proof.
  intros (_ & _ & _ & Hu). unfold resolvedIdentity.
  destruct (user session) as [u |]; [| reflexivity].
  cbn. symmetry. now apply Hu.
Qed.

(** X10.  Success is never signalled without a positive verification
    and never for a user that the developer function did not name.
    Every success signal of a run comes either from a registration
    ceremony, with a session user, whose verifier resolved with
    registration info, and carries the user that the registration
    function resolved to or passed to the completion callback without
    error; or from an assertion that passed the user-handle checks, and
    carries the user of the pairing that the lookup function resolved
    to or passed to the completion callback without error, the
    verifier having resolved to a truthy value on the authenticator of
    that very pairing.  The info is absent in promise style and the
    one of the completion in callback style. *)
Theorem success_requires_verification webauthn self req session u info :
  extractor (options self) req = Done session ->
  In (ESuccess u info) (fst (authenticate webauthn self req)) ->
  (exists u0 rr ri,
     Registered webauthn self req session u0 rr ri /\
     ((fnLength (registrationFn self) < 4 /\
       fnDirect (registrationFn self) req (u0, ri) = Done (Some u) /\
       info = JUndefined) \/
      (4 <= fnLength (registrationFn self) /\
       exists c,
         In c (fst (fnCallback (registrationFn self) req (u0, ri))) /\
         Js.truthy (cErr c) = false /\
         cResult c = Some u /\
         cInfo c = info))) \/
  (exists h cred p v,
     Looked webauthn self req session h cred /\
     uwaUser p = u /\
     verifyAuthenticationResponse webauthn
       (authenticationArgs self req (challenge session) (body req)
          (authenticator p)) = Done v /\
     Js.truthy v = true /\
     ((fnLength (authenticationFn self) < 4 /\
       fnDirect (authenticationFn self) req (cred, h) = Done (Some p) /\
       info = JUndefined) \/
      (4 <= fnLength (authenticationFn self) /\
       exists c,
         In c (fst (fnCallback (authenticationFn self) req (cred, h))) /\
         Js.truthy (cErr c) = false /\
         cResult c = Some p /\
         cInfo c = info))).
Proof.
  intros Hext Hin. apply authenticate_emits in Hin.
  inversion Hin; subst; same_session Hext.
  - (* promise-style registration *)
    left. exists u0, rr, ri. split; [assumption |]. left. now repeat split.
  - (* a completion of the registration function *)
    left. exists u0, rr, ri. split; [assumption |]. right.
    split; [assumption |]. exists c. split; [assumption |].
    match goal with
    | H : completionSignal _ c = _ |- _ =>
        unfold completionSignal in H;
        destruct (Js.truthy (cErr c)); [discriminate H |];
        destruct (cResult c); [injection H as -> -> | discriminate H]
    end.
    now repeat split.
  - (* promise-style lookup *)
    match goal with
    | H : Looked _ _ _ _ ?h ?cred |- _ =>
        pose proof (resolvedIdentity_handle _ _ _ _ _ (proj1 H)) as Hi;
        rewrite Hi in *; right; exists h, cred, p, v
    end.
    split; [assumption |]. split; [reflexivity |]. split; [assumption |].
    split; [assumption |]. left. now repeat split.
  - (* a completion of the lookup function *)
    match goal with
    | H : ConcludedAuthentication _ _ _ _ _ _ _ |- _ => inversion H; subst
    end.
    match goal with
    | H : Looked _ _ _ _ ?h ?cred |- _ =>
        pose proof (resolvedIdentity_handle _ _ _ _ _ (proj1 H)) as Hi;
        rewrite Hi in *; right; exists h, cred, p, v
    end.
    split; [assumption |]. split; [reflexivity |]. split; [assumption |].
    split; [assumption |]. right. split; [assumption |].
    exists c. now repeat split.
Qed.

(** X11.  Whenever the lookup function is called, the identity it
    receives is the [userHandle] of the assertion itself: that handle
    is truthy and, when the session carries a user, it is the id of
    that user, so [user?.id ?? userHandle] never differs from
    [userHandle].  The credential id it receives is [body.id], and it
    is handed the completion callback exactly when its arity is 4 or
    more. *)
Theorem lookup_receives_user_handle webauthn self req session cred identity
    withConclude :
  extractor (options self) req = Done session ->
  In (EAuthenticationFn cred identity withConclude)
     (fst (authenticate webauthn self req)) ->
  userHandleOf req = Done identity /\
  Js.truthy identity = true /\
  (forall u, user session = Some u -> identity = JStr (id u)) /\
  Js.get (body req) "id" = Done cred /\
  withConclude = negb (fnLength (authenticationFn self) <? 4)%nat.
Proof.
  intros Hext Hin. apply authenticate_emits in Hin.
  inversion Hin; subst; same_session Hext;
    try match goal with
      | H : ConcludedAuthentication _ _ _ _ _ _ _ |- _ => inversion H
      | H : completionSignal _ ?c = _ |- _ =>
          unfold completionSignal in H;
          destruct (Js.truthy (cErr c)); [discriminate H |];
          destruct (cResult c); discriminate H
      end.
  match goal with
  | H : Looked _ _ _ _ _ _ |- _ => destruct H as [HA Hid]
  end.
  rewrite (resolvedIdentity_handle _ _ _ _ _ HA).
  destruct HA as (_ & Hh & Ht & Hu). now repeat split.
Qed.

(** X12.  Whenever the registration function is called, it receives
    the user of the session and the registration info that the verifier
    resolved with for this request; it is handed the completion
    callback exactly when its arity is 4 or more. *)
Theorem registration_fn_receives_verified_info webauthn self req session u ri
    withConclude :
  extractor (options self) req = Done session ->
  In (ERegistrationFn u ri withConclude) (fst (authenticate webauthn self req)) ->
  user session = Some u /\
  (exists rr,
     verifyRegistrationResponse webauthn
       (registrationArgs self req (challenge session) (body req)) = Done rr /\
     registrationInfo rr = Some ri) /\
  withConclude = negb (fnLength (registrationFn self) <? 4)%nat.
Proof.
  intros Hext Hin. apply authenticate_emits in Hin.
  inversion Hin; subst; same_session Hext;
    try match goal with
      | H : ConcludedAuthentication _ _ _ _ _ _ _ |- _ => inversion H
      | H : completionSignal _ ?c = _ |- _ =>
          unfold completionSignal in H;
          destruct (Js.truthy (cErr c)); [discriminate H |];
          destruct (cResult c); discriminate H
      end.
  match goal with
  | H : Registered _ _ _ _ _ ?rr _ |- _ =>
      destruct H as (_ & Hu & Hv & Hi); repeat split;
      [exact Hu | now exists rr]
  end.
Qed.

(** X13.  Every call of the verifier, on either path and in either
    style, passes the request body as the response and expects the
    challenge of the session, the configured relying-party id, the
    configured user-verification requirement and, as origin, the
    configured one if there is one, else the [Origin] header if there
    is one, else the host name of the request.  The list of supported
    algorithms is passed on registration only. *)
Theorem verifier_expectations webauthn self req session :
  extractor (options self) req = Done session ->
  let origin :=
    match expectedOrigin (options self) with
    | Some o => o
    | None => match headersOrigin req with
              | Some o => o
              | None => hostname req
              end
    end in
  (forall a, In (EVerifyRegistration a) (fst (authenticate webauthn self req)) ->
     a = {| rvResponse := body req;
            rvExpectedChallenge := challenge session;
            rvExpectedOrigin := origin;
            rvExpectedRPID := expectedRPID (options self);
            rvSupportedAlgorithmIDs := supportedAlgorithmIDs (options self);
            rvRequireUserVerification := requireUserVerification (options self) |}) /\
  (forall a, In (EVerifyAuthentication a) (fst (authenticate webauthn self req)) ->
     a = {| avAuthenticator := avAuthenticator a;
            avResponse := body req;
            avExpectedChallenge := challenge session;
            avExpectedOrigin := origin;
            avExpectedRPID := expectedRPID (options self);
            avRequireUserVerification := requireUserVerification (options self) |}).
Proof.
  intros Hext origin. subst origin.
  split; intros a Hin; apply authenticate_emits in Hin;
    inversion Hin; subst; same_session Hext;
    try match goal with
      | H : ConcludedAuthentication _ _ _ _ _ _ _ |- _ => inversion H; subst
      | H : completionSignal _ ?c = _ |- _ =>
          unfold completionSignal in H;
          destruct (Js.truthy (cErr c)); [discriminate H |];
          destruct (cResult c); discriminate H
      end;
    reflexivity.
Qed.

(** X14.  [console.error] is only reached from the callback-style
    authentication completion: every logged value was thrown by the
    authentication verifier and the lookup function has arity 4 or
    more.  With a promise-style lookup function nothing is ever
    logged. *)
Theorem logging_only_in_callback_style webauthn self req session :
  extractor (options self) req = Done session ->
  (forall v, In v (logged (fst (authenticate webauthn self req))) ->
     4 <= fnLength (authenticationFn self) /\
     exists p,
       verifyAuthenticationResponse webauthn
         (authenticationArgs self req (challenge session) (body req)
            (authenticator p)) = Raised v) /\
  (fnLength (authenticationFn self) < 4 ->
   logged (fst (authenticate webauthn self req)) = []).
Proof.
  intros Hext.
  assert (Hlog : forall v,
    In v (logged (fst (authenticate webauthn self req))) ->
    4 <= fnLength (authenticationFn self) /\
    exists p,
      verifyAuthenticationResponse webauthn
        (authenticationArgs self req (challenge session) (body req)
           (authenticator p)) = Raised v).
  { intros v Hin. unfold logged in Hin. apply in_flat_map in Hin as (e & Hin & Hv).
    destruct e; cbn in Hv; try contradiction. destruct Hv as [<- | []].
    apply authenticate_emits in Hin.
    inversion Hin; subst; same_session Hext;
      try match goal with
        | H : ConcludedAuthentication _ _ _ _ _ _ _ |- _ => inversion H; subst
        | H : completionSignal _ ?c = _ |- _ =>
            unfold completionSignal in H;
            destruct (Js.truthy (cErr c)); [discriminate H |];
            destruct (cResult c); discriminate H
        end.
    split; [assumption |].
    match goal with
    | H : verifyAuthenticationResponse _
            (authenticationArgs _ _ _ _ (authenticator ?p)) = Raised _ |- _ =>
        now exists p
    end. }
  split; [exact Hlog |].
  intros Hlen.
  destruct (logged (fst (authenticate webauthn self req))) as [| v l] eqn:E;
    [reflexivity |].
  destruct (Hlog v (or_introl eq_refl)) as [Hge _]. lia.
Qed.

(** X15.  A fatal error signal always carries a value that came from a
    developer function or from the authentication verifier: the value
    thrown by a promise-style function, the truthy [err] of a
    completion, or the value thrown by the authentication verifier.
    Nothing thrown by the extractor, the decoding of the client data
    or the registration verifier is ever turned into a signal. *)
Theorem error_signal_origin webauthn self req session err :
  extractor (options self) req = Done session ->
  In (EError err) (fst (authenticate webauthn self req)) ->
  (exists u ri, fnDirect (registrationFn self) req (u, ri) = Raised err) \/
  (exists cred h, fnDirect (authenticationFn self) req (cred, h) = Raised err) \/
  (exists u ri c,
     In c (fst (fnCallback (registrationFn self) req (u, ri))) /\
     cErr c = err /\ Js.truthy err = true) \/
  (exists cred h c,
     In c (fst (fnCallback (authenticationFn self) req (cred, h))) /\
     cErr c = err /\ Js.truthy err = true) \/
  (exists p,
     verifyAuthenticationResponse webauthn
       (authenticationArgs self req (challenge session) (body req)
          (authenticator p)) = Raised err).
Proof.
  intros Hext Hin. apply authenticate_emits in Hin.
  inversion Hin; subst; same_session Hext.
  - left. eauto.
  - right; right; left.
    match goal with
    | H : completionSignal _ ?c = _ |- _ =>
        unfold completionSignal in H;
        destruct (Js.truthy (cErr c)) eqn:T;
        [injection H as <- | destruct (cResult c); discriminate H]
    end.
    eauto 10.
  - right; left. eauto.
  - right; right; right; right. eauto.
  - match goal with
    | H : ConcludedAuthentication _ _ _ _ _ _ _ |- _ => inversion H; subst
    end.
    + right; right; right; left. eauto 10.
    + right; right; right; right. eauto.
Qed.

(** ** Counting calls *)

Section Calls.

Variable p : Event -> bool.

Lemma nocall_await {A} (o : Outcome A) : NoCall p (await o).
Proof. reflexivity. Qed.

Lemma nocall_ret {A} (a : A) : NoCall p (ret a).
Proof. reflexivity. Qed.

Lemma nocall_rethrow (e : option JsVal) : NoCall p (rethrow e).
Proof. now destruct e. Qed.

Lemma nocall_emit (e : Event) : p e = false -> NoCall p (emit e).
Proof. intros H. unfold NoCall. cbn. now rewrite H. Qed.

Lemma nocall_bind {A B} (m : Run A) (f : A -> Run B) :
  NoCall p m -> (forall a, NoCall p (f a)) -> NoCall p (bind m f).
Proof.
  unfold NoCall, bind. intros Hm Hf.
  destruct (snd m) as [a | e |]; cbn [fst]; [| exact Hm | exact Hm].
  now rewrite filter_app, Hm, Hf.
Qed.

Lemma nocall_try_catch {A} (m : Run A) (h : JsVal -> Run A) :
  NoCall p m -> (forall e, NoCall p (h e)) -> NoCall p (try_catch m h).
Proof.
  unfold NoCall, try_catch. intros Hm Hh.
  destruct (snd m) as [a | e |]; cbn [fst]; [exact Hm | | exact Hm].
  now rewrite filter_app, Hm, Hh.
Qed.

Lemma nocall_each_detach {A} (g : A -> Run unit) (l : list A) :
  (forall x, NoCall p (g x)) -> NoCall p (each (fun x => detach (g x)) l).
Proof.
  unfold NoCall. intros Hg. rewrite each_detach_trace.
  induction l as [| x l IH]; [reflexivity |].
  cbn [flat_map]. now rewrite filter_app, Hg, IH.
Qed.

Lemma onecall_of_nocall {A} (m : Run A) : NoCall p m -> OneCall p m.
Proof. unfold NoCall, OneCall. intros ->. cbn. lia. Qed.

Lemma onecall_bind {A B} (m : Run A) (f : A -> Run B) :
  NoCall p m -> (forall a, OneCall p (f a)) -> OneCall p (bind m f).
Proof.
  unfold NoCall, OneCall, bind. intros Hm Hf.
  destruct (snd m) as [a | e |]; cbn [fst]; rewrite ?Hm; cbn; try lia.
  rewrite filter_app, Hm. apply Hf.
Qed.

Lemma onecall_then {A B} (m : Run A) (f : A -> Run B) :
  OneCall p m -> (forall a, NoCall p (f a)) -> OneCall p (bind m f).
Proof.
  unfold NoCall, OneCall, bind. intros Hm Hf.
  destruct (snd m) as [a | e |]; cbn [fst]; try exact Hm.
  now rewrite filter_app, Hf, app_nil_r.
Qed.

Lemma onecall_emit (e : Event) : OneCall p (emit e).
Proof. unfold OneCall. cbn. destruct (p e); cbn; lia. Qed.

Lemma onecall_try_catch {A} (m : Run A) (h : JsVal -> Run A) :
  OneCall p m -> (forall e, NoCall p (h e)) -> OneCall p (try_catch m h).
Proof.
  unfold NoCall, OneCall, try_catch. intros Hm Hh.
  destruct (snd m) as [a | e |]; cbn [fst]; try exact Hm.
  now rewrite filter_app, Hh, app_nil_r.
Qed.

Lemma nocall_Permutation (t t' : list Event) :
  Permutation t t' -> filter p t = [] -> filter p t' = [].
Proof.
  intros HP H. apply Permutation_nil.
  rewrite <- H. apply Permutation_filter'. now symmetry.
Qed.

Lemma nocall_play webauthn self req challenge authentication calls :
  (forall c, NoCall p (concludeAuthentication webauthn self req challenge
                         authentication c)) ->
  NoCall p (happen (play webauthn self req challenge authentication
                      (timeline webauthn) 0 calls [])).
Proof.
  intros Hg. unfold NoCall. cbn [fst happen].
  apply (nocall_Permutation _ _
           (Permutation_sym (play_all webauthn self req challenge authentication
                               (timeline webauthn) calls))).
  rewrite filter_flat_map.
  induction calls as [| c calls IH]; [reflexivity |].
  cbn [flat_map]. now rewrite (Hg c), IH.
Qed.

End Calls.

Ltac nocall :=
  repeat first
    [ apply nocall_await
    | apply nocall_ret
    | apply nocall_rethrow
    | apply nocall_emit; reflexivity
    | apply nocall_bind; [| intros ?]
    | apply nocall_try_catch; [| intros ?]
    | apply nocall_each_detach; intros ?
    | apply nocall_play; intros ?
    | match goal with
      | |- NoCall _ (match ?x with Some _ => _ | None => _ end) => destruct x
      | |- NoCall _ (if ?b then _ else _) => destruct b
      | |- NoCall _ (let (_, _) := ?x in _) => destruct x
      end ].

Ltac onecall :=
  repeat first
    [ apply onecall_of_nocall; solve [nocall]
    | apply onecall_emit
    | apply onecall_then; [| intros ?; solve [nocall]]
    | apply onecall_try_catch; [| intros ?; solve [nocall]]
    | apply onecall_bind; [solve [nocall] | intros ?]
    | match goal with
      | |- OneCall _ (match ?x with Some _ => _ | None => _ end) => destruct x
      | |- OneCall _ (if ?b then _ else _) => destruct b
      | |- OneCall _ (let (_, _) := ?x in _) => destruct x
      end ].

(** X16.  An invocation of [authenticate] calls at most one developer
    function and calls it at most once; the completions of a
    callback-style function never lead to a second call.  With a
    promise-style lookup function the verifier is called at most
    once as well. *)
Theorem collaborators_called_once webauthn self req :
  List.length (filter isDeveloperCall (fst (authenticate webauthn self req))) <= 1 /\
  (fnLength (authenticationFn self) < 4 ->
   List.length (filter isVerifierCall (fst (authenticate webauthn self req))) <= 1).
Proof.
  split.
  - change (OneCall isDeveloperCall (authenticate webauthn self req)).
    unfold authenticate; cbv zeta. onecall.
  - intros Hlen. apply Nat.ltb_lt in Hlen.
    change (OneCall isVerifierCall (authenticate webauthn self req)).
    unfold authenticate; cbv zeta. rewrite Hlen. onecall.
Qed.

(** X17.  A promise-style lookup that never settles leaves the
    ceremony without terminal signal: the run stops after the call and
    the promise of [authenticate] never settles either. *)
Theorem promise_style_lookup_never_settles webauthn self req session h cred :
  Looked webauthn self req session h cred ->
  fnLength (authenticationFn self) < 4 ->
  fnDirect (authenticationFn self) req (cred, resolvedIdentity session h)
    = Pending ->
  authenticate webauthn self req =
    ([EAuthenticationFn cred (resolvedIdentity session h) false], Pending).
Proof.
  intros [H Hid] Hlen Hfn.
  apply Nat.ltb_lt in Hlen. unfold resolvedIdentity in *.
  assertion H. now rewrite Hlen, Hid, bind_await_Done, bind_emit, Hfn.
Qed.

(** X18.  The registration function of the README, run by the
    strategy after a successful verification: when [User.create]
    resolves to a user the run signals success with that user; when it
    resolves to nothing the function completes twice and the run
    signals the fatal error ["Couldn't register user"] followed by a
    failure without info or status; when it rejects, the run signals
    the fatal error with the rejection, or a failure without info or
    status if the rejection is a falsy value; when it never settles no
    signal is given. *)
Theorem readme_registration_signals webauthn self req session u rr ri create :
  Registered webauthn self req session u rr ri ->
  registrationFn self = Readme.register create ->
  signals (fst (authenticate webauthn self req)) =
    match create u ri with
    | Done (Some newUser) => [ESuccess newUser JUndefined]
    | Done None => [EError Readme.couldNotRegister; EFail JUndefined None]
    | Raised err => if Js.truthy err then [EError err] else [EFail JUndefined None]
    | Pending => []
    end.
Proof.
  intros (H & Hu & Hv & Hi) Hfn. classify H.
  change (Js.strict_eq_str (JStr "webauthn.create") "webauthn.create") with true.
  cbv iota. rewrite Hu, bind_emit, Hv, bind_await_Done, Hi, Hfn.
  change (fnLength (Readme.register create) <? 4)%nat with false. cbv iota.
  rewrite bind_emit. cbn [Readme.register fnCallback fst snd].
  destruct (create u ri) as [[newUser |] | err |]; try reflexivity.
  unfold bind, detach, concludeRegistration. cbn.
  now destruct (Js.truthy err).
Qed.

(** ** The further properties on concrete ceremonies *)

Import Cases.

Lemma looked_getReq webauthn login register :
  decodeClientData webauthn = decode ->
  Looked webauthn (strategy None login register) getReq (session None)
         (JStr "u2") (JStr "AQI").
Proof.
  intros Hd. split; [| reflexivity].
  split; [split; [reflexivity |] | split; [reflexivity | split; [reflexivity |]]].
  - unfold clientDataTypeOf. cbn. now rewrite Hd.
  - intros u H. discriminate H.
Defined.

Lemma registered_createReq login register :
  Registered accepting (strategy (Some u1) login register) createReq
             (session (Some u1)) u1 verified0 info0.
Proof. repeat split. Defined.

Lemma registration_without_info_fails_witness :
  Ceremony withoutInfo (promises (Some u1)) createReq (session (Some u1))
           (JStr "webauthn.create") /\
  authenticate withoutInfo (promises (Some u1)) createReq =
    ([EVerifyRegistration
        (registrationArgs (promises (Some u1)) createReq "c1" (body createReq));
      EFail (Js.message "Registration failed.") (Some 500%Z)], Done tt).
Proof.
  split; [split; reflexivity |].
  apply (registration_without_info_fails withoutInfo (promises (Some u1))
           createReq (session (Some u1)) u1
           {| verified := false; registrationInfo := None |}).
  - split; reflexivity.
  - reflexivity.
  - reflexivity.
  - reflexivity.
Defined.

Lemma registration_verifier_throw_uncaught_witness :
  Ceremony rejecting (promises (Some u1)) createReq (session (Some u1))
           (JStr "webauthn.create") /\
  authenticate rejecting (promises (Some u1)) createReq =
    ([EVerifyRegistration
        (registrationArgs (promises (Some u1)) createReq "c1" (body createReq))],
     Raised badChallenge).
Proof.
  split; [split; reflexivity |].
  apply (registration_verifier_throw_uncaught rejecting (promises (Some u1))
           createReq (session (Some u1)) u1 badChallenge).
  - split; reflexivity.
  - reflexivity.
  - reflexivity.
Defined.

Lemma falsy_user_handle_not_present_witness :
  Ceremony accepting (promises (Some u1)) noHandleReq (session (Some u1))
           (JStr "webauthn.get") /\
  userHandleOf noHandleReq = Done JUndefined /\
  authenticate accepting (promises (Some u1)) noHandleReq =
    ([EFail (Js.message "User handle not present") (Some 400%Z)], Done tt).
Proof.
  split; [split; reflexivity |]. split; [reflexivity |].
  apply (falsy_user_handle_not_present accepting (promises (Some u1)) noHandleReq
           (session (Some u1)) JUndefined).
  - split; reflexivity.
  - reflexivity.
  - reflexivity.
Defined.

Lemma promise_style_verifier_decides_witness :
  authenticate refusing (promises None) getReq =
    ([EAuthenticationFn (JStr "AQI") (JStr "u2") false;
      EVerifyAuthentication
        (authenticationArgs (promises None) getReq "c1" (body getReq) device0);
      EFail (Js.message "Authenticator verification failed") (Some 400%Z)],
     Done tt).
Proof.
  apply (promise_style_verifier_decides refusing (promises None) getReq
           (session None) (JStr "u2") (JStr "AQI") pairing2 (JBool false)).
  - now apply looked_getReq.
  - cbn; lia.
  - reflexivity.
  - reflexivity.
Defined.

Lemma object_result_is_accepted_witness :
  verifyAuthenticationResponse unverified
    (authenticationArgs (promises None) getReq "c1" (body getReq) device0)
    = Done (JObj [("verified", JBool false)]) /\
  signals (fst (authenticate unverified (promises None) getReq))
    = [ESuccess u2 JUndefined].
Proof.
  split; [reflexivity |].
  apply (object_result_is_accepted unverified (promises None) getReq
           (session None) (JStr "u2") (JStr "AQI") pairing2
           [("verified", JBool false)]).
  - now apply looked_getReq.
  - cbn; lia.
  - reflexivity.
  - reflexivity.
Defined.

Lemma promise_style_lookup_throw_witness :
  authenticate accepting
    (strategy None (loginDirect (Raised lookupFailed)) (registerDirect (Done None)))
    getReq =
    ([EAuthenticationFn (JStr "AQI") (JStr "u2") false; EError lookupFailed],
     Done tt).
Proof.
  apply (promise_style_lookup_throw accepting
           (strategy None (loginDirect (Raised lookupFailed))
              (registerDirect (Done None)))
           getReq (session None) (JStr "u2") (JStr "AQI") lookupFailed).
  - now apply looked_getReq.
  - cbn; lia.
  - reflexivity.
Defined.

Lemma concludeAuthentication_cases_witness :
  concludeAuthentication accepting (promises None) getReq "c1" (body getReq)
    (mkCompletion dbDown (Some pairing2) JUndefined) =
    ([EConcludeAuthentication (mkCompletion dbDown (Some pairing2) JUndefined);
      EError dbDown], Done tt).
Proof.
  destruct (concludeAuthentication_cases accepting (promises None) getReq "c1"
              (body getReq) (mkCompletion dbDown (Some pairing2) JUndefined))
    as [He _].
  exact (He eq_refl).
Defined.

Lemma callback_style_lookup_relays_witness :
  Looked accepting successThenError getReq (session None) (JStr "u2")
         (JStr "AQI") /\
  fst (authenticate accepting successThenError getReq) =
    [EAuthenticationFn (JStr "AQI") (JStr "u2") true;
     EConcludeAuthentication (mkCompletion JNull (Some pairing2) JUndefined);
     EVerifyAuthentication
       (authenticationArgs successThenError getReq "c1" (body getReq) device0);
     EConcludeAuthentication (mkCompletion dbDown None JUndefined);
     EError dbDown;
     ESuccess u2 JUndefined] /\
  fst (authenticate settling successThenError getReq) =
    [EAuthenticationFn (JStr "AQI") (JStr "u2") true;
     EConcludeAuthentication (mkCompletion JNull (Some pairing2) JUndefined);
     EVerifyAuthentication
       (authenticationArgs successThenError getReq "c1" (body getReq) device0);
     ESuccess u2 JUndefined;
     EConcludeAuthentication (mkCompletion dbDown None JUndefined);
     EError dbDown].
Proof.
  assert (HL : forall webauthn, decodeClientData webauthn = decode ->
            Looked webauthn successThenError getReq (session None)
                   (JStr "u2") (JStr "AQI"))
    by (intros webauthn Hd; now apply looked_getReq).
  assert (Hlen : 4 <= fnLength (authenticationFn successThenError))
    by (cbn; lia).
  split; [exact (HL accepting eq_refl) |]. split.
  - destruct (callback_style_lookup_relays accepting successThenError getReq
                (session None) (JStr "u2") (JStr "AQI")
                (HL accepting eq_refl) Hlen)
      as (_ & _ & Hb & _).
    exact (Hb 0 eq_refl).
  - destruct (callback_style_lookup_relays settling successThenError getReq
                (session None) (JStr "u2") (JStr "AQI")
                (HL settling eq_refl) Hlen)
      as (_ & _ & _ & Hs & _).
    exact (Hs eq_refl).
Defined.

Lemma extractor_throw_rejects_witness :
  authenticate accepting sessionless getReq = ([], Raised noSession).
Proof.
  apply (extractor_throw_rejects accepting sessionless getReq noSession).
  reflexivity.
Defined.

Lemma success_requires_verification_witness :
  In (ESuccess u2 JUndefined) (fst (authenticate accepting (promises None) getReq)) /\
  exists h cred p v,
    Looked accepting (promises None) getReq (session None) h cred /\
    uwaUser p = u2 /\
    verifyAuthenticationResponse accepting
      (authenticationArgs (promises None) getReq "c1" (body getReq)
         (authenticator p)) = Done v /\
    Js.truthy v = true /\
    fnDirect (authenticationFn (promises None)) getReq (cred, h) = Done (Some p).
Proof.
  assert (I : In (ESuccess u2 JUndefined)
                 (fst (authenticate accepting (promises None) getReq)))
    by (right; right; left; reflexivity).
  split; [exact I |].
  destruct (success_requires_verification accepting (promises None) getReq
              (session None) u2 JUndefined eq_refl I)
    as [(u0 & rr & ri & HR & _)
       | (h & cred & p & v & HL & Hu & Hv & Ht & [(_ & Hd & _) | (Hl & _)])].
  - exfalso. destruct HR as [[_ Hc] _]. vm_compute in Hc. discriminate Hc.
  - exists h, cred, p, v. repeat (split; [assumption |]). exact Hd.
  - exfalso. cbn in Hl. lia.
Defined.

Lemma lookup_receives_user_handle_witness :
  In (EAuthenticationFn (JStr "AQI") (JStr "u2") false)
     (fst (authenticate accepting (promises None) getReq)) /\
  userHandleOf getReq = Done (JStr "u2") /\
  Js.get (body getReq) "id" = Done (JStr "AQI").
Proof.
  assert (I : In (EAuthenticationFn (JStr "AQI") (JStr "u2") false)
                 (fst (authenticate accepting (promises None) getReq)))
    by (left; reflexivity).
  split; [exact I |].
  destruct (lookup_receives_user_handle accepting (promises None) getReq
              (session None) (JStr "AQI") (JStr "u2") false eq_refl I)
    as (Hh & _ & _ & Hid & _).
  now split.
Defined.

Lemma registration_fn_receives_verified_info_witness :
  In (ERegistrationFn u1 info0 false)
     (fst (authenticate accepting (promises (Some u1)) createReq)) /\
  user (session (Some u1)) = Some u1.
Proof.
  assert (I : In (ERegistrationFn u1 info0 false)
                 (fst (authenticate accepting (promises (Some u1)) createReq)))
    by (right; left; reflexivity).
  split; [exact I |].
  destruct (registration_fn_receives_verified_info accepting (promises (Some u1))
              createReq (session (Some u1)) u1 info0 false eq_refl I)
    as (Hu & _).
  exact Hu.
Defined.

Lemma verifier_expectations_witness :
  In (EVerifyRegistration
        (registrationArgs (unconfigured (Some u1)) createReq "c1" (body createReq)))
     (fst (authenticate accepting (unconfigured (Some u1)) createReq)) /\
  rvExpectedOrigin
    (registrationArgs (unconfigured (Some u1)) createReq "c1" (body createReq))
    = "https://example.com" /\
  hostname createReq = "example.com".
Proof.
  assert (I : In (EVerifyRegistration
                    (registrationArgs (unconfigured (Some u1)) createReq "c1"
                       (body createReq)))
                 (fst (authenticate accepting (unconfigured (Some u1)) createReq)))
    by (left; reflexivity).
  split; [exact I |].
  destruct (verifier_expectations accepting (unconfigured (Some u1)) createReq
              (session (Some u1)) eq_refl) as [Hr _].
  rewrite (Hr _ I). split; reflexivity.
Defined.

Lemma logging_only_in_callback_style_witness :
  logged (fst (authenticate throwing (promises None) getReq)) = [].
Proof.
  destruct (logging_only_in_callback_style throwing (promises None) getReq
              (session None) eq_refl) as [_ Hp].
  apply Hp. cbn; lia.
Defined.

Lemma error_signal_origin_witness :
  In (EError boom) (fst (authenticate throwing (promises None) getReq)) /\
  exists p,
    verifyAuthenticationResponse throwing
      (authenticationArgs (promises None) getReq "c1" (body getReq)
         (authenticator p)) = Raised boom.
Proof.
  assert (I : In (EError boom)
                 (fst (authenticate throwing (promises None) getReq)))
    by (right; right; left; reflexivity).
  split; [exact I |].
  destruct (error_signal_origin throwing (promises None) getReq (session None)
              boom eq_refl I)
    as [(u & ri & H) | [(cred & h & H) | [(u & ri & c & H & _)
       | [(cred & h & c & H & _) | H]]]].
  - discriminate H.
  - discriminate H.
  - destruct H.
  - destruct H.
  - exact H.
Defined.

Lemma collaborators_called_once_witness :
  List.length (filter isVerifierCall
                 (fst (authenticate accepting (promises None) getReq))) <= 1.
Proof.
  destruct (collaborators_called_once accepting (promises None) getReq)
    as [_ Hv].
  apply Hv. cbn; lia.
Defined.

Lemma promise_style_lookup_never_settles_witness :
  authenticate accepting
    (strategy None (loginDirect Pending) (registerDirect (Done None))) getReq =
    ([EAuthenticationFn (JStr "AQI") (JStr "u2") false], Pending).
Proof.
  apply (promise_style_lookup_never_settles accepting
           (strategy None (loginDirect Pending) (registerDirect (Done None)))
           getReq (session None) (JStr "u2") (JStr "AQI")).
  - now apply looked_getReq.
  - cbn; lia.
  - reflexivity.
Defined.

Lemma readme_registration_signals_witness :
  signals (fst (authenticate accepting
                  (strategy (Some u1) (loginDirect (Done None))
                     (Readme.register (fun _ _ => Done None)))
                  createReq))
    = [EError Readme.couldNotRegister; EFail JUndefined None].
Proof.
  apply (readme_registration_signals accepting
           (strategy (Some u1) (loginDirect (Done None))
              (Readme.register (fun _ _ => Done None)))
           createReq (session (Some u1)) u1 verified0 info0
           (fun _ _ => Done None)).
  - apply registered_createReq.
  - reflexivity.
Defined.
